(** * GamesmanOne: the HTTP gateway (server.py) and the quixo literal
      converter (src/games/quixo/convert.py)

    A shallow embedding of the two Python programs and the properties of
    their specification.

    Python values are modelled as follows: [str] is [string] (characters
    are 8-bit codes), [int] is [Z], a raised exception is the [Raise] case
    of [result].  The library functions the programs call ([shlex.split],
    [subprocess.run], [re.sub], [int], [hex], Flask's dispatch) are modelled
    next to the code that calls them, each in a module named after the
    Python module. *)

From stdpp Require Import gmap strings list.
From Stdlib Require Import ZArith Ascii String.
From Equations Require Import Equations.

Local Open Scope string_scope.

(** ** Python: exceptions and results *)

Module Py.

(** The exceptions that occur in the two programs. *)
Inductive exn : Type :=
| CalledProcessError (returncode : Z) (cmd : list string) (output stderr : string)
| ValueError (msg : string)
| FileNotFoundError (filename : string)
| PermissionError (filename : string)
| OSError (errno : Z)
| OtherError (name : string).

(** The outcome of evaluating a Python expression. *)
Inductive result (A : Type) : Type :=
| Return (a : A)
| Raise (e : exn).
Arguments Return {A} a.
Arguments Raise {A} e.

#[export] Instance result_ret : MRet result := fun A a => Return a.
#[export] Instance result_bind : MBind result := fun A B f r =>
  match r with
  | Return a => f a
  | Raise e => Raise e
  end.

(** [try: body except <clause> as e: handler]. The clause is a partial
    function: [None] means the exception is not of the class named by the
    clause, and it propagates. *)
Definition try_except {A} (body : result A) (clause : exn -> option (result A)) : result A :=
  match body with
  | Return a => Return a
  | Raise e =>
      match clause e with
      | Some handled => handled
      | None => Raise e
      end
  end.

(** The double quote character, and a string holding just it. *)
Definition dquote : ascii := "034"%char.
Definition squote : ascii := "'"%char.
Definition backslash : ascii := "\"%char.
Definition dq : string := String dquote EmptyString.

(** [c in s] for a one-character [c]. *)
Fixpoint char_in (c : ascii) (s : string) : bool :=
  match s with
  | EmptyString => false
  | String d s' => if Ascii.eqb c d then true else char_in c s'
  end.

Definition is_empty (s : string) : bool :=
  match s with EmptyString => true | _ => false end.

(** [s + c] for a one-character [c]. *)
Definition snoc (s : string) (c : ascii) : string := s +:+ String c EmptyString.

End Py.
Export Py.

(** ** shlex.split

    CPython's [Lib/shlex.py], for the call [shlex.split(s)]: a lexer in
    POSIX mode with [whitespace_split = True], no comment characters and no
    punctuation characters. *)

Module Shlex.

Definition whitespace : string :=
  String " " (String "009" (String "013" (String "010" EmptyString))).
Definition quotes : string := String squote (String dquote EmptyString).
Definition escape : string := String backslash EmptyString.
Definition escapedquotes : string := String dquote EmptyString.

(** [wordchars]: ASCII letters, digits, underscore and, in POSIX mode, the
    Latin-1 letters (codes 192 to 255 without the two signs 215 and 247). *)
Definition wordchars (c : ascii) : bool :=
  let n := N_of_ascii c in
  ((97 <=? n) && (n <=? 122) || (65 <=? n) && (n <=? 90) || (48 <=? n) && (n <=? 57)
   || (n =? 95)
   || (192 <=? n) && (n <=? 255) && negb (n =? 215) && negb (n =? 247))%N.

(** The lexer's [state] attribute: [None] (past the end), [' '], ['a'], a
    quote character, or the escape character. The same type holds the local
    [escapedstate]. *)
Inductive lex_state : Type :=
| StEof
| StWhite
| StWord
| StQuote (q : ascii)
| StEscape (e : ascii).

(** The test of the escape state, [escapedstate in self.quotes and
    nextchar != self.state and nextchar != escapedstate]; [e] is
    [self.state], the escape character. *)
Definition keeps_escape (escapedstate : lex_state) (e nextchar : ascii) : bool :=
  match escapedstate with
  | StQuote q => negb (Ascii.eqb nextchar e) && negb (Ascii.eqb nextchar q)
  | _ => false
  end.

(** The end of [read_token] together with [__next__] and [list(lex)]:
    the token read is the next element of the list, unless it is the
    end-of-file token [None] (an empty token that was not quoted), which
    ends the list. [more] is the rest of the list. *)
Definition emit (token : string) (quoted : bool)
    (more : result (list string)) : result (list string) :=
  if quoted || negb (is_empty token)
  then toks ← more; mret (token :: toks)
  else mret [].

(** [list(lex)]: the loop of [read_token], one character of [instream] per
    step, restarted with fresh locals after each token.  [token] is
    [self.token]; [quoted] and [escapedstate] are the locals of
    [read_token]. *)
Fixpoint tokens (instream : string) (state : lex_state) (token : string)
    (quoted : bool) (escapedstate : lex_state) : result (list string) :=
  match instream with
  | EmptyString =>
      (* nextchar == '' *)
      match state with
      | StEof => emit EmptyString quoted (mret [])
      | StWhite | StWord => emit token quoted (mret [])
      | StQuote _ => Raise (ValueError "No closing quotation")
      | StEscape _ => Raise (ValueError "No escaped character")
      end
  | String nextchar rest =>
      match state with
      | StEof => emit EmptyString quoted (mret [])
      | StWhite =>
          if char_in nextchar whitespace then
            if negb (is_empty token) || quoted
            then emit token quoted (tokens rest StWhite EmptyString false StWhite)
            else tokens rest StWhite token quoted escapedstate
          else if char_in nextchar escape then
            tokens rest (StEscape nextchar) token quoted StWord
          else if wordchars nextchar then
            tokens rest StWord (String nextchar EmptyString) quoted escapedstate
          else if char_in nextchar quotes then
            tokens rest (StQuote nextchar) token quoted escapedstate
          else
            (* whitespace_split *)
            tokens rest StWord (String nextchar EmptyString) quoted escapedstate
      | StQuote q =>
          (* quoted = True *)
          if Ascii.eqb nextchar q then
            tokens rest StWord token true escapedstate
          else if char_in nextchar escape && char_in q escapedquotes then
            tokens rest (StEscape nextchar) token true (StQuote q)
          else
            tokens rest (StQuote q) (snoc token nextchar) true escapedstate
      | StEscape e =>
          let token' :=
            if keeps_escape escapedstate e nextchar then snoc token e else token in
          tokens rest escapedstate (snoc token' nextchar) quoted escapedstate
      | StWord =>
          if char_in nextchar whitespace then
            if negb (is_empty token) || quoted
            then emit token quoted (tokens rest StWhite EmptyString false StWhite)
            else tokens rest StWhite token quoted escapedstate
          else if char_in nextchar quotes then
            tokens rest (StQuote nextchar) token quoted escapedstate
          else if char_in nextchar escape then
            tokens rest (StEscape nextchar) token quoted StWord
          else
            (* wordchars, quotes, or whitespace_split *)
            tokens rest StWord (snoc token nextchar) quoted escapedstate
      end
  end.

(** [shlex.split(s)]. *)
Definition split (s : string) : result (list string) :=
  tokens s StWhite EmptyString false StWhite.

End Shlex.

(** ** subprocess.run

    The operating system is a parameter: [os argv] is what happens when the
    program [argv] is started and waited for. *)

Module Subprocess.

(** Why a child could not be run to completion. [CalledProcessError] is
    not among them: only [check=True] raises it, below. *)
Inductive launch_fault : Type :=
| ENOENT (filename : string)
| EACCES (filename : string)
| EOTHER (errno : Z)
| EPYTHON (name : string).

Definition exn_of_fault (f : launch_fault) : exn :=
  match f with
  | ENOENT filename => FileNotFoundError filename
  | EACCES filename => PermissionError filename
  | EOTHER errno => OSError errno
  | EPYTHON name => OtherError name
  end.

(** What the system does with an argument vector: the child runs and
    exits with a code, its two captured streams decoded as text, or it
    cannot be run. *)
Inductive child : Type :=
| Exited (returncode : Z) (stdout stderr : string)
| Failed (f : launch_fault).

Definition system : Type := list string -> child.

Record CompletedProcess : Type := {
  args : list string;
  returncode : Z;
  stdout : string;
  stderr : string
}.

(** The vector [Popen] executes on POSIX: with [shell=True] the arguments
    are handed to [/bin/sh -c], otherwise they are executed as they are. *)
Definition popen_args (shell : bool) (args : list string) : list string :=
  if shell then "/bin/sh" :: "-c" :: args else args.

(** [subprocess.run(args, check=check, shell=shell, stdout=PIPE,
    stderr=PIPE, text=True)]. *)
Definition run (os : system) (args : list string) (check shell : bool)
    : result CompletedProcess :=
  match os (popen_args shell args) with
  | Failed f => Raise (exn_of_fault f)
  | Exited rc out err =>
      if check && negb (rc =? 0)%Z
      then Raise (CalledProcessError rc args out err)
      else Return {| args := args; returncode := rc; stdout := out; stderr := err |}
  end.

End Subprocess.

(** ** server.py *)

Module Server.

Import Subprocess.

Definition build_error_response (message : string) : string :=
  ("{ " +:+ dq +:+ "error" +:+ dq +:+ ": " +:+ dq) +:+ message +:+ (dq +:+ " }").

(** The clause [except subprocess.CalledProcessError as e] of
    [run_command]. *)
Definition except_CalledProcessError (e : exn) : option (result string) :=
  match e with
  | CalledProcessError _ _ _ e_stderr => Some (Return (build_error_response e_stderr))
  | _ => None
  end.

Definition run_command (os : system) (command : string) : result string :=
  try_except
    (argv ← Shlex.split command;
     result ← run os argv true false;
     mret (stdout result))
    except_CalledProcessError.

(** The two f-strings. *)
Definition getstart_command (game_name variant_id : string) : string :=
  "bin/gamesman getstart " +:+ game_name +:+ " " +:+ variant_id.

Definition query_command (game_name variant_id position : string) : string :=
  "bin/gamesman query -- " +:+ game_name +:+ " " +:+ variant_id +:+ " " +:+ position.

Definition getstart (os : system) (game_name variant_id : string) : result string :=
  run_command os (getstart_command game_name variant_id).

Definition query (os : system) (game_name variant_id position : string) : result string :=
  run_command os (query_command game_name variant_id position).

End Server.

(** ** Flask

    The part of Flask and Werkzeug that [server.py] relies on: the URL map
    built by the two [@app.route] decorators, and the conversion of what a
    view returns into a response.  A view that returns a [str] gives a
    response with that body and the default status; an exception that
    leaves the view, and a path no rule accepts, are answered by the
    framework with an error page. Slash merging is not modelled. *)

Module Flask.

Import Subprocess.

(** [path.split('/')]; [segment] accumulates the current piece. *)
Fixpoint split_slash (path : string) (segment : string) : list string :=
  match path with
  | EmptyString => [segment]
  | String c rest =>
      if Ascii.eqb c "/" then segment :: split_slash rest EmptyString
      else split_slash rest (snoc segment c)
  end.

(** The default converter of a [<name>] part accepts one or more
    characters other than the slash. *)
Definition converts (segment : string) : bool := negb (is_empty segment).

Inductive routed : Type :=
| ToGetstart (game_name variant_id : string)
| ToQuery (game_name variant_id position : string)
| RequestRedirect
| NotFound.

(** The two rules, [/<game_name>/<variant_id>/] for [getstart] and
    [/<game_name>/<variant_id>/<position>] for [query].  A path that lacks
    the trailing slash of the first rule is redirected to the path with it. *)
Definition url_match (path : string) : routed :=
  match split_slash path EmptyString with
  | [EmptyString; game_name; variant_id; last] =>
      if converts game_name && converts variant_id then
        if is_empty last then ToGetstart game_name variant_id
        else ToQuery game_name variant_id last
      else NotFound
  | [EmptyString; game_name; variant_id] =>
      if converts game_name && converts variant_id then RequestRedirect
      else NotFound
  | _ => NotFound
  end.

Inductive response : Type :=
| FromView (body : string)
| FromException (code : Z).


(** [make_response] on a view's outcome; an exception that reaches Flask
    becomes [InternalServerError]. *)
Definition finalize (rv : result string) : response :=
  match rv with
  | Return body => FromView body
  | Raise _ => FromException 500
  end.

(** One GET request for [path]. *)
Definition full_dispatch_request (os : system) (path : string) : response :=
  match url_match path with
  | ToGetstart game_name variant_id =>
      finalize (Server.getstart os game_name variant_id)
  | ToQuery game_name variant_id position =>
      finalize (Server.query os game_name variant_id position)
  | RequestRedirect => FromException 308
  | NotFound => FromException 404
  end.

End Flask.

(** ** re.sub

    The fragment of Python's regular expressions that [convert.py] uses: a
    pattern is a sequence of items, each a literal character or a set
    [[...]] of characters, taken once or repeated greedily with [+].
    Anything else in a pattern is refused with [re.error]. *)

Module Re.

Inductive quantifier : Type := Once | Plus.

Record item : Type := {
  chars : string;
  quant : quantifier
}.

Definition metachar (c : ascii) : bool := char_in c ".^$*+?{}[]\|()".

(** [re.compile]: [set] is the set being read after an opening bracket,
    [items] the items read so far, last one first. *)
Fixpoint compile_from (pattern : string) (set : option string) (items : list item)
    : result (list item) :=
  match pattern with
  | EmptyString =>
      match set with
      | None => Return (rev items)
      | Some _ => Raise (OtherError "re.error")
      end
  | String c rest =>
      match set with
      | Some cs =>
          if Ascii.eqb c "]" then
            if is_empty cs then Raise (OtherError "re.error")
            else compile_from rest None ({| chars := cs; quant := Once |} :: items)
          else if char_in c "-^\[" then Raise (OtherError "re.error")
          else compile_from rest (Some (snoc cs c)) items
      | None =>
          if Ascii.eqb c "[" then compile_from rest (Some EmptyString) items
          else if Ascii.eqb c "+" then
            match items with
            | {| chars := cs; quant := Once |} :: items' =>
                compile_from rest None ({| chars := cs; quant := Plus |} :: items')
            | _ => Raise (OtherError "re.error")
            end
          else if metachar c then Raise (OtherError "re.error")
          else compile_from rest None
                 ({| chars := String c EmptyString; quant := Once |} :: items)
      end
  end.

Definition compile (pattern : string) : result (list item) :=
  compile_from pattern None [].

(** [c + m] for an optional match [m]. *)
Definition cons_match (c : ascii) (m : option string) : option string :=
  String c <$> m.

(** [pattern.match(s)]: the text matched at the start of [s], if any. A
    repeated item takes as many characters as it can and gives them back
    one by one while the rest of the pattern fails. *)
Fixpoint match_at (re : list item) : string -> option string :=
  match re with
  | [] => fun _ => Some EmptyString
  | it :: re' =>
      match quant it with
      | Once => fun s =>
          match s with
          | String c s' =>
              if char_in c (chars it) then cons_match c (match_at re' s') else None
          | EmptyString => None
          end
      | Plus =>
          fix repeat (s : string) : option string :=
            match s with
            | String c s' =>
                if char_in c (chars it) then
                  match repeat s' with
                  | Some m => Some (String c m)
                  | None => cons_match c (match_at re' s')
                  end
                else None
            | EmptyString => None
            end
      end
  end.

(** [s[n:]]. *)
Fixpoint drop_chars (n : nat) (s : string) : string :=
  match n, s with
  | S n', String _ s' => drop_chars n' s'
  | _, _ => s
  end.

Section Sub.

Variable re : list item.
Variable repl : string -> result string.

(** The loop of [pattern.sub(repl, s)], from the current position: where
    the pattern matches, the replacement is emitted and the search goes on
    after the match (after the next character when the match is empty);
    elsewhere the character is copied. *)
Equations? sub_from (s : string) : result string by wf (String.length s) lt :=
  sub_from EmptyString with match_at re EmptyString := {
    | Some m => repl m
    | None => Return EmptyString };
  sub_from (String c s') with match_at re (String c s') := {
    | Some EmptyString =>
        r ← repl EmptyString; out ← sub_from s'; mret (r +:+ String c out)
    | Some (String a m') =>
        r ← repl (String a m'); out ← sub_from (drop_chars (String.length m') s');
        mret (r +:+ out)
    | None => out ← sub_from s'; mret (String c out) }.
Proof.
  all: simpl; try lia.
  clear. generalize (String.length m') as n. intros n.
  revert s'; induction n as [|n IH]; intros [|d s']; simpl; try lia.
  specialize (IH s'). lia.
Qed.

End Sub.

(** [re.sub(pattern, repl, string)] with a function [repl], which is given
    the matched text ([match.group(0)]). *)
Definition sub (pattern : string) (repl : string -> result string) (s : string)
    : result string :=
  re ← compile pattern; sub_from re repl s.

End Re.

(** ** The builtins [int] and [hex] *)

Module Builtins.

(** The value of a digit character: [0-9], then letters of either case
    from ten on. *)
Definition digit_value (c : ascii) : option Z :=
  let n := Z.of_N (N_of_ascii c) in
  if (48 <=? n)%Z && (n <=? 57)%Z then Some (n - 48)%Z
  else if (97 <=? n)%Z && (n <=? 122)%Z then Some (n - 87)%Z
  else if (65 <=? n)%Z && (n <=? 90)%Z then Some (n - 55)%Z
  else None.

(** The digits of [s] in [base], most significant first, added to [acc]. *)
Fixpoint parse_digits (base : Z) (s : string) (acc : Z) : option Z :=
  match s with
  | EmptyString => Some acc
  | String c s' =>
      match digit_value c with
      | Some d => if (d <? base)%Z then parse_digits base s' (acc * base + d)%Z else None
      | None => None
      end
  end.

(** The letter of the prefix that [int] accepts for a base. *)
Definition prefix_letter (base : Z) (c : ascii) : bool :=
  if (base =? 2)%Z then char_in c "bB"
  else if (base =? 8)%Z then char_in c "oO"
  else if (base =? 16)%Z then char_in c "xX"
  else false.

Definition strip_prefix (base : Z) (s : string) : string :=
  match s with
  | String "0" (String l s') => if prefix_letter base l then s' else s
  | _ => s
  end.

Definition invalid_literal : exn := ValueError "invalid literal for int()".

(** [int(x, base)] for a string [x]: an optional sign, the optional prefix
    of the base and one or more digits.  Surrounding blanks and underscores
    between digits, which Python also accepts, are refused here. *)
Definition int (x : string) (base : Z) : result Z :=
  let '(sign, body) :=
    match x with
    | String "-" s => ((-1)%Z, s)
    | String "+" s => (1%Z, s)
    | _ => (1%Z, x)
    end in
  let digits := strip_prefix base body in
  if is_empty digits then Raise invalid_literal
  else match parse_digits base digits 0 with
       | Some v => Return (sign * v)%Z
       | None => Raise invalid_literal
       end.

Definition hex_digit (d : N) : ascii :=
  match String.get (N.to_nat d) "0123456789abcdef" with
  | Some c => c
  | None => "?"%char
  end.

(** The hexadecimal digits of a natural number, most significant first. *)
Equations? hex_digits (n : N) : string by wf (N.to_nat (N.log2 n)) lt :=
  hex_digits n with decide (n < 16)%N := {
    | left _ => String (hex_digit n) EmptyString
    | right H => snoc (hex_digits (n / 16)%N) (hex_digit (n mod 16)%N) }.
Proof.
  change 16%N with (2 ^ 4)%N in *.
  rewrite <- N.shiftr_div_pow2, N.log2_shiftr.
  assert (4 <= N.log2 n)%N by (apply N.log2_le_pow2; lia). lia.
Qed.

(** [hex(x)]. *)
Definition hex (x : Z) : string :=
  match x with
  | Z.neg p => "-0x" +:+ hex_digits (N.pos p)
  | _ => "0x" +:+ hex_digits (Z.to_N x)
  end.

End Builtins.

(** ** src/games/quixo/convert.py

    The files of the working directory are a finite map from paths to the
    text of each file, as [read] returns it and [write] takes it. *)

Module Convert.

Import Builtins.

Abbreviation files := (gmap string string).

(** [with open(path, 'r') as file: file.read()]. *)
Definition read_text (fs : files) (path : string) : result string :=
  match fs !! path with
  | Some content => Return content
  | None => Raise (FileNotFoundError path)
  end.

(** [with open(path, 'w') as file: file.write(text)]. *)
Definition write_text (fs : files) (path : string) (text : string) : files :=
  <[path := text]> fs.

Definition binary_pattern : string := "0b[01]+".

Definition binary_to_hex (match_group_0 : string) : result string :=
  let binary_value := match_group_0 in
  n ← int binary_value 2;
  let hex_value := hex n in
  mret hex_value.

Definition convert_binary_to_hex (file_path : string) (fs : files) : result files :=
  content ← read_text fs file_path;
  updated_content ← Re.sub binary_pattern binary_to_hex content;
  mret (write_text fs file_path updated_content).

Definition file_path : string := "quixo.c".

(** The script: the two statements at module level. *)
Definition script (fs : files) : result files :=
  convert_binary_to_hex file_path fs.

End Convert.

(** ** Notions of the specification *)

(** *** JSON texts (RFC 8259)

    A recogniser for the grammar of RFC 8259. Each function returns the
    input that is left after the construct it recognises. [fuel] bounds
    the nesting of values and the number of members. *)

Module Json.

(** Space, horizontal tab, line feed, carriage return. *)
Definition is_ws (c : ascii) : bool :=
  char_in c (String " " (String "009" (String "010" (String "013" EmptyString)))).

Fixpoint skip_ws (s : string) : string :=
  match s with
  | String c s' => if is_ws c then skip_ws s' else s
  | EmptyString => s
  end.

Definition is_digit (c : ascii) : bool := char_in c "0123456789".
Definition is_hexdig (c : ascii) : bool := char_in c "0123456789abcdefABCDEF".

Fixpoint skip_digits (s : string) : string :=
  match s with
  | String c s' => if is_digit c then skip_digits s' else s
  | EmptyString => s
  end.

(** One or more digits. *)
Definition digits1 (s : string) : option string :=
  match s with
  | String c s' => if is_digit c then Some (skip_digits s') else None
  | EmptyString => None
  end.

(** The characters of a string after its opening quotation mark, up to and
    including the closing one. *)
Fixpoint string_tail (s : string) : option string :=
  match s with
  | EmptyString => None
  | String c s' =>
      if Ascii.eqb c dquote then Some s'
      else if Ascii.eqb c backslash then
        match s' with
        | String e s'' =>
            if Ascii.eqb e dquote || char_in e "\/bfnrt" then string_tail s''
            else if Ascii.eqb e "u" then
              match s'' with
              | String h1 (String h2 (String h3 (String h4 s4))) =>
                  if is_hexdig h1 && is_hexdig h2 && is_hexdig h3 && is_hexdig h4
                  then string_tail s4 else None
              | _ => None
              end
            else None
        | EmptyString => None
        end
      else if (N_of_ascii c <? 32)%N then None
      else string_tail s'
  end.

Definition json_string (s : string) : option string :=
  match s with
  | String c s' => if Ascii.eqb c dquote then string_tail s' else None
  | EmptyString => None
  end.

Definition number (s : string) : option string :=
  let s1 := match s with String "-" r => r | _ => s end in
  s2 ← match s1 with
       | String "0" r => Some r
       | _ => digits1 s1
       end;
  s3 ← match s2 with
       | String "." r => digits1 r
       | _ => Some s2
       end;
  match s3 with
  | String e r =>
      if char_in e "eE" then
        digits1 (match r with
                 | String sg r' => if char_in sg "+-" then r' else r
                 | EmptyString => r
                 end)
      else Some s3
  | EmptyString => Some s3
  end.

(** [literal w s]: [s] without its prefix [w]. *)
Fixpoint literal (w s : string) : option string :=
  match w, s with
  | EmptyString, _ => Some s
  | String a w', String c s' => if Ascii.eqb a c then literal w' s' else None
  | _, _ => None
  end.

(** [expect c s]: [s] without blanks and the character [c] in front. *)
Definition expect (c : ascii) (s : string) : option string :=
  match skip_ws s with
  | String d r => if Ascii.eqb c d then Some r else None
  | EmptyString => None
  end.

Fixpoint value (fuel : nat) (s : string) : option string :=
  match fuel with
  | O => None
  | S fuel' =>
      match s with
      | String c s' =>
          if Ascii.eqb c dquote then string_tail s'
          else if Ascii.eqb c "{" then
            match expect "}" s' with
            | Some r => Some r
            | None => members fuel' (skip_ws s')
            end
          else if Ascii.eqb c "[" then
            match expect "]" s' with
            | Some r => Some r
            | None => elements fuel' (skip_ws s')
            end
          else if Ascii.eqb c "t" then literal "true" s
          else if Ascii.eqb c "f" then literal "false" s
          else if Ascii.eqb c "n" then literal "null" s
          else number s
      | EmptyString => None
      end
  end
with members (fuel : nat) (s : string) : option string :=
  match fuel with
  | O => None
  | S fuel' =>
      s1 ← json_string s;
      s2 ← expect ":" s1;
      s3 ← value fuel' (skip_ws s2);
      match expect "}" s3 with
      | Some r => Some r
      | None => s4 ← expect "," s3; members fuel' (skip_ws s4)
      end
  end
with elements (fuel : nat) (s : string) : option string :=
  match fuel with
  | O => None
  | S fuel' =>
      s1 ← value fuel' s;
      match expect "]" s1 with
      | Some r => Some r
      | None => s2 ← expect "," s1; elements fuel' (skip_ws s2)
      end
  end.

(** A JSON text is a value with optional blanks around it. *)
Definition text (fuel : nat) (s : string) : bool :=
  match value fuel (skip_ws s) with
  | Some r => is_empty (skip_ws r)
  | None => false
  end.

Definition valid (s : string) : Prop := exists fuel, text fuel s = true.

(** A character that may stand in a string as it is: not the quotation
    mark, not the backslash, not a control character. *)
Definition unescaped (c : ascii) : bool :=
  negb (Ascii.eqb c dquote) && negb (Ascii.eqb c backslash)
  && negb (N_of_ascii c <? 32)%N.

Fixpoint ordinary (s : string) : bool :=
  match s with
  | EmptyString => true
  | String c s' => unescaped c && ordinary s'
  end.

(** After a member of an object, [s] goes on with the end of the object or
    with a comma. *)
Definition continues (s : string) : bool :=
  match expect "}" s, expect "," s with
  | None, None => false
  | _, _ => true
  end.

End Json.

(** *** Words without shell syntax *)

Module Word.

(** A character that [shlex] neither splits at nor interprets: no blank,
    no quote, no backslash. The shell's operators [;] and [|] are such
    characters. *)
Definition plain_char (c : ascii) : bool :=
  negb (char_in c Shlex.whitespace) && negb (char_in c Shlex.quotes)
  && negb (char_in c Shlex.escape).

Fixpoint plain (s : string) : bool :=
  match s with
  | EmptyString => true
  | String c s' => plain_char c && plain s'
  end.

(** A path segment made of one or more plain characters. *)
Definition word (s : string) : bool := negb (is_empty s) && plain s.

End Word.

(** *** Integer literals of C *)

Module Literal.

(** The number written by the digits [ds], most significant first. *)
Fixpoint positional (base : Z) (ds : list Z) : Z :=
  match ds with
  | [] => 0
  | d :: ds' => d * base ^ Z.of_nat (List.length ds') + positional base ds'
  end.

Fixpoint index_of (c : ascii) (alphabet : string) (i : Z) : option Z :=
  match alphabet with
  | EmptyString => None
  | String a rest => if Ascii.eqb c a then Some i else index_of c rest (i + 1)%Z
  end.

(** The digits of a literal over an alphabet, if all its characters are in
    the alphabet. *)
Fixpoint digit_values (alphabet : string) (s : string) : option (list Z) :=
  match s with
  | EmptyString => Some []
  | String c s' =>
      d ← index_of c alphabet 0;
      ds ← digit_values alphabet s';
      Some (d :: ds)
  end.

(** The value of a literal: the two characters of its prefix, then one or
    more digits of the alphabet. *)
Definition denotation (letter : ascii) (alphabet : string) (lit : string) : option Z :=
  match lit with
  | String "0" (String l ds) =>
      if Ascii.eqb l letter && negb (is_empty ds)
      then positional (Z.of_nat (String.length alphabet)) <$> digit_values alphabet ds
      else None
  | _ => None
  end.

Definition binary_literal : string -> option Z := denotation "b" "01".

Definition hex_alphabet : string := "0123456789abcdef".

(** A hexadecimal literal with lowercase digits. *)
Definition hex_literal : string -> option Z := denotation "x" hex_alphabet.

(** [h] is a hexadecimal literal for the number that the binary literal
    [b] denotes. *)
Definition hex_equivalent (b h : string) : Prop :=
  exists v, binary_literal b = Some v /\ hex_literal h = Some v.

Definition is_bit (c : ascii) : bool := char_in c "01".

(** The bits at the start of a text. *)
Fixpoint bits (s : string) : string :=
  match s with
  | String c s' => if is_bit c then String c (bits s') else EmptyString
  | EmptyString => EmptyString
  end.

(** The items of the pattern [0b[01]+]. *)
Definition bit_item : Re.item := {| Re.chars := "01"; Re.quant := Re.Plus |}.

Definition binary_items : list Re.item :=
  [ {| Re.chars := "0"; Re.quant := Re.Once |};
    {| Re.chars := "b"; Re.quant := Re.Once |};
    bit_item ].

(** A binary literal starts the text. *)
Definition starts (s : string) : bool :=
  match s with
  | String "0" (String "b" (String c _)) => is_bit c
  | _ => false
  end.

Definition starts_with_bit (s : string) : bool :=
  match s with
  | String c _ => is_bit c
  | EmptyString => false
  end.

(** The longest occurrence of the pattern [0b[01]+] at the start of [s]
    is [lit]: the prefix and all the bits that follow it. *)
Inductive maximal : string -> string -> Prop :=
| maximal_intro (bits rest : string) :
    bits <> EmptyString ->
    (forall c, char_in c bits = true -> is_bit c = true) ->
    starts_with_bit rest = false ->
    maximal ("0b" +:+ bits) (("0b" +:+ bits) +:+ rest).

(** [rewritten s out]: [out] is [s] with every maximal occurrence of the
    pattern, found from left to right, replaced by a hexadecimal equivalent
    and every other character copied. *)
Inductive rewritten : string -> string -> Prop :=
| rewritten_end : rewritten EmptyString EmptyString
| rewritten_literal (lit rest h out : string) :
    maximal lit (lit +:+ rest) ->
    hex_equivalent lit h ->
    rewritten rest out ->
    rewritten (lit +:+ rest) (h +:+ out)
| rewritten_copy (c : ascii) (s out : string) :
    starts (String c s) = false ->
    rewritten s out ->
    rewritten (String c s) (String c out).

End Literal.

(** *** Texts cut into kept and replaced pieces *)

Module Frame.

Inductive chunk : Type :=
| Kept (text : string)
| Replaced (old new : string).

Definition before (ch : chunk) : string :=
  match ch with Kept text => text | Replaced old _ => old end.

Definition after (ch : chunk) : string :=
  match ch with Kept text => text | Replaced _ new => new end.

Fixpoint source (chunks : list chunk) : string :=
  match chunks with
  | [] => EmptyString
  | ch :: rest => before ch +:+ source rest
  end.

Fixpoint target (chunks : list chunk) : string :=
  match chunks with
  | [] => EmptyString
  | ch :: rest => after ch +:+ target rest
  end.

(** Every replaced piece is what the pattern [re] matches at the place
    where the piece starts. *)
Fixpoint matches (re : list Re.item) (chunks : list chunk) : Prop :=
  match chunks with
  | [] => True
  | Kept _ :: rest => matches re rest
  | Replaced old _ :: rest =>
      Re.match_at re (old +:+ source rest) = Some old /\ matches re rest
  end.

End Frame.

(** *** The command behind a request *)

Module Request.

(** A path segment: one or more characters, none of them a slash. *)
Definition segment (s : string) : bool := negb (is_empty s) && negb (char_in "/" s).

(** The paths of the two patterns. *)
Definition getstart_path (game_name variant_id : string) : string :=
  "/" +:+ game_name +:+ "/" +:+ variant_id +:+ "/".

Definition query_path (game_name variant_id position : string) : string :=
  "/" +:+ game_name +:+ "/" +:+ variant_id +:+ "/" +:+ position.

(** The command line that the view routed to by [path] runs. *)
Definition command_of (path : string) : option string :=
  match Flask.url_match path with
  | Flask.ToGetstart game_name variant_id =>
      Some (Server.getstart_command game_name variant_id)
  | Flask.ToQuery game_name variant_id position =>
      Some (Server.query_command game_name variant_id position)
  | _ => None
  end.

End Request.

(** *** Shapes of texts *)

Module Text.

(** No quotation mark of either kind and no backslash: nothing that
    [shlex] treats as quoting. *)
Fixpoint unquoted (s : string) : bool :=
  match s with
  | EmptyString => true
  | String c s' =>
      negb (char_in c Shlex.quotes) && negb (char_in c Shlex.escape) && unquoted s'
  end.

(** The segments put together again, with a slash between two of them. *)
Fixpoint join_slash (segments : list string) : string :=
  match segments with
  | [] => EmptyString
  | s :: rest =>
      match rest with
      | [] => s
      | _ => s +:+ "/" +:+ join_slash rest
      end
  end.

(** A control character, below the space. *)
Definition control (c : ascii) : bool := (N_of_ascii c <? 32)%N.

(** A binary literal starts somewhere in the text. *)
Fixpoint has_literal (s : string) : bool :=
  match s with
  | EmptyString => false
  | String _ s' => Literal.starts s || has_literal s'
  end.

(** A character that no occurrence of the pattern [0b[01]+] contains. *)
Definition separator (c : ascii) : bool := negb (char_in c "01b").

End Text.

(** ** Text mode

    What Python puts between a program and the bytes outside it: pipes
    opened with [text=True] and files opened in text mode decode and encode
    with the encoding of the locale and translate line ends. A [bytes]
    value is a [string] whose characters are the bytes. *)

Module TextMode.

Definition CR : ascii := "013"%char.
Definition LF : ascii := "010"%char.

(** [data.replace("\r\n", "\n")]. *)
Fixpoint replace_crlf (s : string) : string :=
  match s with
  | EmptyString => EmptyString
  | String c rest =>
      match rest with
      | String d rest' =>
          if Ascii.eqb c CR && Ascii.eqb d LF then String LF (replace_crlf rest')
          else String c (replace_crlf rest)
      | EmptyString => String c EmptyString
      end
  end.

(** [data.replace("\r", "\n")]. *)
Fixpoint replace_cr (s : string) : string :=
  match s with
  | EmptyString => EmptyString
  | String c rest => String (if Ascii.eqb c CR then LF else c) (replace_cr rest)
  end.

(** Universal newlines on input ([newline=None]): the line ends CR LF
    and CR are read as LF. *)
Definition universal_newlines (s : string) : string := replace_cr (replace_crlf s).

(** On output each LF is written as the line separator of the system. *)
Fixpoint output_newlines (linesep : string) (s : string) : string :=
  match s with
  | EmptyString => EmptyString
  | String c rest =>
      (if Ascii.eqb c LF then linesep else String c EmptyString)
      +:+ output_newlines linesep rest
  end.

(** The encoding of the locale and the line separator of the system.
    [None] stands for [UnicodeDecodeError] and [UnicodeEncodeError]. A
    text is a [string], as everywhere here: its characters have codes
    below 256. *)
Record platform : Type := {
  decode : string -> option string;
  encode : string -> option string;
  linesep : string
}.

Fixpoint is_ascii (s : string) : bool :=
  match s with
  | EmptyString => true
  | String c rest => (N_of_ascii c <? 128)%N && is_ascii rest
  end.

(** Two platforms whose encodings fit 8-bit characters exactly: POSIX
    with [latin-1], where every byte is the character of the same code,
    and POSIX with [ascii], which refuses codes from 128 on. *)
Definition posix_latin_1 : platform :=
  {| decode := Some; encode := Some; linesep := String LF EmptyString |}.

Definition posix_ascii : platform :=
  {| decode := fun b => if is_ascii b then Some b else None;
     encode := fun t => if is_ascii t then Some t else None;
     linesep := String LF EmptyString |}.

(** An encoding that has ASCII as it is, as [utf-8], [latin-1] and
    [ascii] have. *)
Definition ascii_compatible (pf : platform) : Prop :=
  forall s, is_ascii s = true -> decode pf s = Some s /\ encode pf s = Some s.


End TextMode.

(** ** Pipes in text mode

    [Popen.communicate] with [text=True]: the bytes the child wrote to its
    two pipes are decoded and their line ends translated
    ([_translate_newlines]); bytes that cannot be decoded are a fault of
    [subprocess.run]. This gives the [Subprocess.system] that [run]
    works on. *)

Module Pipes.

Import Subprocess TextMode.






End Pipes.

(** ** The application

    [Flask(__name__)] has a rule of its own, [/static/<path:filename>],
    which is tried before the rules of [server.py]: a path under
    [/static/] is answered from the folder of static files, here a
    parameter, and reaches neither [getstart] nor [query]. A response made
    from a text is sent encoded in UTF-8. *)

Module App.

Import Subprocess Flask TextMode.

(** [s] without its prefix [prefix]. *)
Fixpoint after_prefix (prefix s : string) : option string :=
  match prefix, s with
  | EmptyString, _ => Some s
  | String a prefix', String c s' =>
      if Ascii.eqb a c then after_prefix prefix' s' else None
  | String _ _, EmptyString => None
  end.

(** The part of a path that the rule [/static/<path:filename>] takes: what
    follows [/static/], when it is not empty and does not begin with a
    slash. *)
Definition static_filename (path : string) : option string :=
  match after_prefix "/static/" path with
  | Some (String c filename) =>
      if Ascii.eqb c "/" then None else Some (String c filename)
  | _ => None
  end.

(** One GET request for [path] to the application. [static_view] is what
    the application answers under [/static/], for the part of the path
    that the rule takes. *)
Definition wsgi_app (static_view : string -> response) (os : system)
    (path : string) : response :=
  match static_filename path with
  | Some filename => static_view filename
  | None => full_dispatch_request os path
  end.


End App.

(** ** The files of the script, in bytes

    [convert.py] on the bytes of the working directory: [open] in text
    mode fails on a missing file, a directory, a file without permission
    and bytes that do not decode; reading translates line ends; opening
    for writing empties the file before the text is encoded and written. *)

Module Disk.

Import TextMode Convert.

Inductive node : Type :=
| Regular (data : string) (readable writable : bool)
| Folder.

Abbreviation disk := (gmap string node).

(** [with open(path, 'r') as file: file.read()]. *)
Definition read_text (pf : platform) (d : disk) (path : string) : result string :=
  match d !! path with
  | None => Raise (FileNotFoundError path)
  | Some Folder => Raise (OtherError "IsADirectoryError")
  | Some (Regular data readable _) =>
      if readable then
        match decode pf data with
        | Some text => Return (universal_newlines text)
        | None => Raise (OtherError "UnicodeDecodeError")
        end
      else Raise (PermissionError path)
  end.

(** [with open(path, 'w') as file: file.write(text)]: the disk afterwards
    and how the statement ends. A file that is not there is created. *)
Definition write_text (pf : platform) (d : disk) (path : string) (text : string)
    : disk * result unit :=
  match d !! path with
  | Some Folder => (d, Raise (OtherError "IsADirectoryError"))
  | Some (Regular _ _ false) => (d, Raise (PermissionError path))
  | Some (Regular _ readable true) =>
      match encode pf (output_newlines (linesep pf) text) with
      | Some data => (<[path := Regular data readable true]> d, Return tt)
      | None =>
          (<[path := Regular EmptyString readable true]> d,
           Raise (OtherError "UnicodeEncodeError"))
      end
  | None =>
      match encode pf (output_newlines (linesep pf) text) with
      | Some data => (<[path := Regular data true true]> d, Return tt)
      | None =>
          (<[path := Regular EmptyString true true]> d,
           Raise (OtherError "UnicodeEncodeError"))
      end
  end.

(** [convert_binary_to_hex(file_path)]. *)
Definition convert_binary_to_hex (pf : platform) (file_path : string) (d : disk)
    : disk * result unit :=
  match read_text pf d file_path with
  | Raise e => (d, Raise e)
  | Return content =>
      match Re.sub binary_pattern binary_to_hex content with
      | Raise e => (d, Raise e)
      | Return updated_content => write_text pf d file_path updated_content
      end
  end.

(** The script. *)
Definition script (pf : platform) (d : disk) : disk * result unit :=
  convert_binary_to_hex pf file_path d.

End Disk.

(** *** Word splitting of the POSIX shell

    The rules for the words of a command in the POSIX shell, as the POSIX
    mode of [shlex] documents them, without the expansions and operators
    of a shell: blanks separate words; a backslash outside quotes keeps
    the next character; between apostrophes every character is kept;
    between double quotes every character is kept, but a backslash before
    a double quote or a backslash is dropped and that character kept (a
    shell drops it before a dollar sign, a backquote and a line end too,
    which it expands); the quotes themselves are removed. The characters
    are written out here, not taken from the tables of the lexer. *)

Module ShellWords.

(** Space, tab, line feed and carriage return. *)
Definition blank (c : ascii) : bool :=
  Ascii.eqb c " " || Ascii.eqb c "009" || Ascii.eqb c "010" || Ascii.eqb c "013".

Definition special (c : ascii) : bool :=
  Ascii.eqb c "'" || Ascii.eqb c "034" || Ascii.eqb c "\".

(** [inside src value]: between double quotes, [src] stands for [value]. *)
Inductive inside : string -> string -> Prop :=
| inside_end : inside EmptyString EmptyString
| inside_char (c : ascii) (src value : string) :
    Ascii.eqb c "034" = false -> Ascii.eqb c "\" = false ->
    inside src value ->
    inside (String c src) (String c value)
| inside_escaped (c : ascii) (src value : string) :
    Ascii.eqb c "034" || Ascii.eqb c "\" = true ->
    inside src value ->
    inside (String "\" (String c src)) (String c value)
| inside_backslash (c : ascii) (src value : string) :
    Ascii.eqb c "034" = false -> Ascii.eqb c "\" = false ->
    inside src value ->
    inside (String "\" (String c src)) (String "\" (String c value)).

(** [pieces src value quoted]: [src], a sequence of plain characters,
    escaped characters and quoted parts, stands for [value]; [quoted] tells
    whether a quoted part is among them. *)
Inductive pieces : string -> string -> bool -> Prop :=
| pieces_end : pieces EmptyString EmptyString false
| pieces_plain (c : ascii) (src value : string) (quoted : bool) :
    blank c = false -> special c = false ->
    pieces src value quoted ->
    pieces (String c src) (String c value) quoted
| pieces_escaped (c : ascii) (src value : string) (quoted : bool) :
    pieces src value quoted ->
    pieces (String "\" (String c src)) (String c value) quoted
| pieces_single (q src value : string) (quoted : bool) :
    char_in "'" q = false ->
    pieces src value quoted ->
    pieces (String "'" (q +:+ String "'" src)) (q +:+ value) true
| pieces_double (q qvalue src value : string) (quoted : bool) :
    inside q qvalue ->
    pieces src value quoted ->
    pieces (String "034" (q +:+ String "034" src)) (qvalue +:+ value) true.

(** A word: one piece at least. *)
Definition word (src value : string) : Prop :=
  exists quoted, pieces src value quoted /\ src <> EmptyString.

(** [words command argv]: the command is the words of [argv], in this
    order, with blanks between them and possibly around them. *)
Inductive words : string -> list string -> Prop :=
| words_end : words EmptyString []
| words_blank (c : ascii) (command : string) (argv : list string) :
    blank c = true -> words command argv -> words (String c command) argv
| words_last (src value : string) :
    word src value -> words src [value]
| words_more (src value : string) (c : ascii) (command : string) (argv : list string) :
    word src value -> blank c = true -> words command argv ->
    words (src +:+ String c command) (value :: argv).

End ShellWords.

(** *** The answer to a child *)

Module Answer.

Import Subprocess Server.

(** What [run_command] returns for what the system did with the argument
    vector. *)
Definition answer (c : child) : result string :=
  match c with
  | Failed f => Raise (exn_of_fault f)
  | Exited rc out err =>
      if (rc =? 0)%Z then Return out else Return (build_error_response err)
  end.

End Answer.

(** *** Texts that end a JSON object *)

Module ErrorJson.

(** [s] is the closing brace of an object and blanks around it. *)
Definition ends_object (s : string) : Prop :=
  exists r, Json.expect "}" s = Some r /\ is_empty (Json.skip_ws r) = true.

(** [s] is a comma, further members of an object and its closing brace,
    with nothing but blanks after it. *)
Definition more_members (s : string) : Prop :=
  exists s4 fuel r,
    Json.expect "," s = Some s4
    /\ Json.members fuel (Json.skip_ws s4) = Some r
    /\ is_empty (Json.skip_ws r) = true.

(** Read after the quotation mark that opens a string, [s] ends the
    string and then the object that the string is a member of, at once or
    after further members. *)
Definition closes_object (s : string) : Prop :=
  exists s3, Json.string_tail s = Some s3 /\ (ends_object s3 \/ more_members s3).

End ErrorJson.


(** * Properties *)

#[local] Arguments String.append !s1 s2 : simpl nomatch.

(** ** Strings *)

Section Strings.

Lemma append_assoc (a b c : string) : (a +:+ b) +:+ c = a +:+ (b +:+ c).
Proof. induction a as [|x a IH]; simpl; [reflexivity | now rewrite IH]. Qed.

Lemma append_empty_r (a : string) : a +:+ EmptyString = a.
Proof. induction a as [|x a IH]; simpl; [reflexivity | now rewrite IH]. Qed.

Lemma snoc_append (a : string) (c : ascii) (b : string) :
  snoc a c +:+ b = a +:+ String c b.
Proof. unfold snoc. now rewrite append_assoc. Qed.

Lemma is_empty_append (a b : string) :
  is_empty (a +:+ b) = is_empty a && is_empty b.
Proof. now destruct a. Qed.

Lemma length_append (a b : string) :
  String.length (a +:+ b) = String.length a + String.length b.
Proof. induction a as [|x a IH]; simpl; [reflexivity | now rewrite IH]. Qed.

End Strings.

(** ** shlex.split on words *)

Section ShlexWords.

Import Shlex Word.

Lemma plain_char_tests (c : ascii) :
  plain_char c = true ->
  char_in c whitespace = false /\ char_in c quotes = false /\ char_in c escape = false.
Proof.
  unfold plain_char. intros H.
  apply andb_true_iff in H as [H He]. apply andb_true_iff in H as [Hw Hq].
  now rewrite negb_true_iff in Hw, Hq, He.
Qed.

(** Inside a word, plain characters are appended to the token. *)
Lemma tokens_word_chars (w rest token : string) (quoted : bool) (esc : lex_state) :
  plain w = true ->
  tokens (w +:+ rest) StWord token quoted esc
  = tokens rest StWord (token +:+ w) quoted esc.
Proof.
  revert token. induction w as [|c w IH]; intros token Hw.
  - now rewrite append_empty_r.
  - cbn [plain] in Hw. apply andb_true_iff in Hw as [Hc Hw].
    cbn [String.append tokens].
    destruct (plain_char_tests c Hc) as (-> & -> & ->).
    rewrite IH by assumption. now rewrite snoc_append.
Qed.

(** Between tokens, a plain character starts a word. *)
Lemma tokens_word_start (c : ascii) (rest : string) (esc : lex_state) :
  plain_char c = true ->
  tokens (String c rest) StWhite EmptyString false esc
  = tokens rest StWord (String c EmptyString) false esc.
Proof.
  intros Hc. cbn [tokens].
  destruct (plain_char_tests c Hc) as (-> & -> & ->).
  now destruct (wordchars c).
Qed.

(** A word followed by a blank is the next token. *)
Lemma tokens_word_blank (w rest : string) :
  word w = true ->
  tokens (w +:+ String " " rest) StWhite EmptyString false StWhite
  = toks ← tokens rest StWhite EmptyString false StWhite; mret (w :: toks).
Proof.
  unfold word. intros Hw. apply andb_true_iff in Hw as [Hne Hw].
  destruct w as [|c w]; [discriminate |]. cbn [plain] in Hw.
  apply andb_true_iff in Hw as [Hc Hw].
  change (String c w +:+ String " " rest) with (String c (w +:+ String " " rest)).
  rewrite tokens_word_start by assumption.
  rewrite tokens_word_chars by assumption.
  reflexivity.
Qed.

(** A word at the end of the input is the last token. *)
Lemma tokens_word_last (w : string) :
  word w = true ->
  tokens w StWhite EmptyString false StWhite = Return [w].
Proof.
  unfold word. intros Hw. apply andb_true_iff in Hw as [Hne Hw].
  destruct w as [|c w]; [discriminate |]. cbn [plain] in Hw.
  apply andb_true_iff in Hw as [Hc Hw].
  rewrite tokens_word_start by assumption.
  rewrite <- (append_empty_r w) at 1.
  rewrite tokens_word_chars by assumption.
  reflexivity.
Qed.

(** The tokens of the two commands, for segments that are words. *)
Lemma split_getstart_command (game_name variant_id : string) :
  word game_name = true -> word variant_id = true ->
  split (Server.getstart_command game_name variant_id)
  = Return ["bin/gamesman"; "getstart"; game_name; variant_id].
Proof.
  intros Hg Hv. unfold split, Server.getstart_command.
  change ("bin/gamesman getstart " +:+ ?x)
    with ("bin/gamesman" +:+ String " " ("getstart" +:+ String " " x)).
  rewrite !tokens_word_blank by (assumption || reflexivity).
  change (" " +:+ variant_id) with (String " " variant_id).
  rewrite tokens_word_blank, tokens_word_last by assumption.
  reflexivity.
Qed.

Lemma split_query_prefix (game_name variant_id position : string) :
  split (Server.query_command game_name variant_id position)
  = toks ← tokens (game_name +:+ " " +:+ variant_id +:+ " " +:+ position)
             StWhite EmptyString false StWhite;
    mret ("bin/gamesman" :: "query" :: "--" :: toks).
Proof.
  unfold split, Server.query_command.
  change ("bin/gamesman query -- " +:+ ?x)
    with ("bin/gamesman" +:+ String " " ("query" +:+ String " " ("--" +:+ String " " x))).
  rewrite !tokens_word_blank by reflexivity.
  now destruct (tokens _ _ _ _ _).
Qed.

Lemma split_query_command (game_name variant_id position : string) :
  word game_name = true -> word variant_id = true -> word position = true ->
  split (Server.query_command game_name variant_id position)
  = Return ["bin/gamesman"; "query"; "--"; game_name; variant_id; position].
Proof.
  intros Hg Hv Hp. rewrite split_query_prefix.
  change (game_name +:+ " " +:+ variant_id +:+ " " +:+ position)
    with (game_name +:+ String " " (variant_id +:+ String " " position)).
  rewrite !tokens_word_blank, tokens_word_last by assumption.
  reflexivity.
Qed.

End ShlexWords.

(** ** Routing *)

Section Routing.

Import Flask Request.

Lemma split_slash_chars (s rest seg : string) :
  char_in "/" s = false ->
  split_slash (s +:+ rest) seg = split_slash rest (seg +:+ s).
Proof.
  revert seg. induction s as [|c s IH]; intros seg Hs.
  - now rewrite append_empty_r.
  - cbn [char_in] in Hs. cbn [String.append split_slash].
    rewrite Ascii.eqb_sym. destruct (Ascii.eqb "/" c); [discriminate |].
    rewrite IH by assumption. now rewrite snoc_append.
Qed.

Lemma split_slash_segment (s rest seg : string) :
  char_in "/" s = false ->
  split_slash (s +:+ String "/" rest) seg = (seg +:+ s) :: split_slash rest EmptyString.
Proof. intros Hs. now rewrite split_slash_chars. Qed.

Lemma split_slash_last (s seg : string) :
  char_in "/" s = false -> split_slash s seg = [seg +:+ s].
Proof.
  intros Hs. rewrite <- (append_empty_r s) at 1. now rewrite split_slash_chars.
Qed.

Lemma segment_parts (s : string) :
  segment s = true -> converts s = true /\ is_empty s = false /\ char_in "/" s = false.
Proof.
  unfold segment, converts. intros H. apply andb_true_iff in H as [H1 H2].
  rewrite negb_true_iff in H2. rewrite H1. now rewrite negb_true_iff in H1.
Qed.

Lemma url_match_getstart_path (game_name variant_id : string) :
  segment game_name = true -> segment variant_id = true ->
  url_match (getstart_path game_name variant_id) = ToGetstart game_name variant_id.
Proof.
  intros Hg Hv.
  destruct (segment_parts _ Hg) as (Cg & _ & Sg), (segment_parts _ Hv) as (Cv & _ & Sv).
  unfold url_match, getstart_path.
  change ("/" +:+ game_name +:+ "/" +:+ variant_id +:+ "/")
    with (EmptyString +:+ String "/" (game_name +:+ String "/" (variant_id +:+ String "/" EmptyString))).
  rewrite !split_slash_segment by (assumption || reflexivity).
  cbn [split_slash String.append]. now rewrite Cg, Cv.
Qed.

Lemma url_match_query_path (game_name variant_id position : string) :
  segment game_name = true -> segment variant_id = true -> segment position = true ->
  url_match (query_path game_name variant_id position)
  = ToQuery game_name variant_id position.
Proof.
  intros Hg Hv Hp.
  destruct (segment_parts _ Hg) as (Cg & _ & Sg), (segment_parts _ Hv) as (Cv & _ & Sv),
    (segment_parts _ Hp) as (_ & Ep & Sp).
  unfold url_match, query_path.
  change ("/" +:+ game_name +:+ "/" +:+ variant_id +:+ "/" +:+ position)
    with (EmptyString +:+ String "/" (game_name +:+ String "/" (variant_id +:+ String "/" position))).
  rewrite !split_slash_segment by (assumption || reflexivity).
  rewrite split_slash_last by assumption.
  cbn [String.append]. now rewrite Cg, Cv, Ep.
Qed.

End Routing.

(** ** The command runner *)

Section CommandRunner.

Import Subprocess Server.

Variable os : system.

Lemma emit_raises (token : string) (quoted : bool) (more : result (list string)) (e : exn) :
  Shlex.emit token quoted more = Raise e -> more = Raise e.
Proof.
  unfold Shlex.emit. destruct (quoted || negb (is_empty token)); [|discriminate].
  now destruct more.
Qed.

(** The lexer raises nothing but [ValueError]. *)
Lemma tokens_raises (s : string) :
  forall state token quoted esc e,
    Shlex.tokens s state token quoted esc = Raise e -> exists msg, e = ValueError msg.
Proof.
  induction s as [|c s IH]; intros state token quoted esc e H; cbn [Shlex.tokens] in H.
  - destruct state;
      try (apply emit_raises in H; discriminate);
      injection H as <-; eauto.
  - destruct state;
      repeat match type of H with
        | (if ?b then _ else _) = _ => destruct b
        | Shlex.emit _ _ _ = Raise _ => apply emit_raises in H
        end;
      try discriminate; eauto.
Qed.

Lemma split_raises (command : string) (e : exn) :
  Shlex.split command = Raise e -> except_CalledProcessError e = None.
Proof. intros H. apply tokens_raises in H as [msg ->]. reflexivity. Qed.

Lemma fault_not_caught (f : launch_fault) :
  except_CalledProcessError (exn_of_fault f) = None.
Proof. now destruct f. Qed.

(** What [run_command] does, case by case. *)
Lemma run_command_cases (command : string) :
  run_command os command =
  match Shlex.split command with
  | Raise e => Raise e
  | Return argv =>
      match os argv with
      | Failed f => Raise (exn_of_fault f)
      | Exited rc out err =>
          if (rc =? 0)%Z then Return out else Return (build_error_response err)
      end
  end.
Proof.
  unfold run_command.
  destruct (Shlex.split command) as [argv|e] eqn:Hsplit; cbn.
  - unfold run, popen_args. destruct (os argv) as [rc out err|f]; cbn.
    + now destruct (rc =? 0)%Z.
    + now rewrite fault_not_caught.
  - now rewrite (split_raises _ _ Hsplit).
Qed.

End CommandRunner.

(** ** The gateway *)

Section Gateway.

Import Subprocess Server Flask Request Word.

(** C3. [run_command] catches one kind of failure, the child exiting with
    a code other than zero, and turns it into the error body. A command
    that cannot be split and a child that cannot be started (file not
    found, permission denied, any other fault) leave [run_command] as the
    exception they are. *)
Theorem run_command_catches_only_exit_status (os : system) (command : string) :
  (forall e, except_CalledProcessError e <> None
             <-> exists rc cmd out err, e = CalledProcessError rc cmd out err)
  /\ match Shlex.split command with
     | Raise e => run_command os command = Raise e /\ exists msg, e = ValueError msg
     | Return argv =>
         match os argv with
         | Exited rc out err =>
             (rc = 0%Z -> run_command os command = Return out)
             /\ (rc <> 0%Z -> run_command os command = Return (build_error_response err))
         | Failed f =>
             run_command os command = Raise (exn_of_fault f)
             /\ except_CalledProcessError (exn_of_fault f) = None
             /\ (forall name, f = ENOENT name ->
                   run_command os command = Raise (FileNotFoundError name))
             /\ (forall name, f = EACCES name ->
                   run_command os command = Raise (PermissionError name))
         end
     end.
Proof.
  split.
  - intros e; split.
    + destruct e; cbn; try congruence. eauto.
    + intros (rc & cmd & out & err & ->). discriminate.
  - rewrite run_command_cases.
    destruct (Shlex.split command) as [argv|e] eqn:Hsplit.
    + destruct (os argv) as [rc out err|f].
      * split; intros Hrc.
        -- now subst rc.
        -- apply Z.eqb_neq in Hrc. now rewrite Hrc.
      * repeat split; [apply fault_not_caught | now intros name -> ..].
    + split; [reflexivity | eapply tokens_raises; exact Hsplit].
Qed.

Lemma run_command_catches_only_exit_status_witness :
  run_command (fun _ => Failed (EACCES "bin/gamesman")) "bin/gamesman getstart a b"
  = Raise (PermissionError "bin/gamesman").
Proof.
  pose proof (run_command_catches_only_exit_status
                (fun _ => Failed (EACCES "bin/gamesman"))
                "bin/gamesman getstart a b") as [_ H].
  cbn in H. destruct H as (_ & _ & _ & H). now apply H.
Defined.

End Gateway.

(** ** Status and independence of requests *)

Section Responses.

Import Subprocess Server Flask Request.

Lemma dispatch_routed (os : system) (path command : string) :
  command_of path = Some command ->
  full_dispatch_request os path = finalize (run_command os command).
Proof.
  unfold command_of, full_dispatch_request.
  destruct (url_match path); intros H; try discriminate; now injection H as <-.
Qed.




(** X17. The response to a request depends on the system only through
    what the system does with the tokens of the command of that request:
    two systems that agree on this one argument vector give the same
    response, and the same result of the view. *)
Theorem same_child_same_response (os1 os2 : system) (path : string) :
  (forall command argv,
      command_of path = Some command ->
      Shlex.split command = Return argv ->
      os1 argv = os2 argv) ->
  full_dispatch_request os1 path = full_dispatch_request os2 path
  /\ (forall game_name variant_id,
        url_match path = ToGetstart game_name variant_id ->
        getstart os1 game_name variant_id = getstart os2 game_name variant_id)
  /\ (forall game_name variant_id position,
        url_match path = ToQuery game_name variant_id position ->
        query os1 game_name variant_id position = query os2 game_name variant_id position).
Proof.
  intros Hsame.
  assert (Hrun : forall command, command_of path = Some command ->
                                 run_command os1 command = run_command os2 command).
  { intros command Hc. rewrite !run_command_cases.
    destruct (Shlex.split command) as [argv|e] eqn:Hs; [|reflexivity].
    now rewrite (Hsame command argv Hc Hs). }
  repeat split.
  - destruct (command_of path) as [command|] eqn:Hc.
    + rewrite !(dispatch_routed _ _ _ Hc). now rewrite (Hrun _ eq_refl).
    + unfold command_of in Hc. unfold full_dispatch_request.
      destruct (url_match path); try discriminate; reflexivity.
  - intros g v Hm. apply Hrun. unfold command_of. now rewrite Hm.
  - intros g v p Hm. apply Hrun. unfold command_of. now rewrite Hm.
Qed.

Lemma same_child_same_response_witness :
  full_dispatch_request
    (fun argv => match argv with
                 | [_; "getstart"; _; _] => Exited 0 "start" EmptyString
                 | _ => Exited 1 EmptyString "busy"
                 end)
    (getstart_path "a" "b")
  = full_dispatch_request (fun _ => Exited 0 "start" EmptyString) (getstart_path "a" "b").
Proof.
  apply (same_child_same_response _ _ (getstart_path "a" "b")).
  intros command argv Hc Hs.
  injection Hc as <-. injection Hs as <-. reflexivity.
Defined.

End Responses.

(** ** The error body *)

Section ErrorBody.

Import Subprocess Server.

(** The characters of the error body for the message [e], by code. *)
Example build_error_response_codes :
  map N_of_ascii (list_ascii_of_string (build_error_response "e"))
  = [123; 32; 34; 101; 114; 114; 111; 114; 34; 58; 32; 34; 101; 34; 32; 125]%N.
Proof. reflexivity. Qed.

Lemma string_tail_ordinary (p r : string) :
  Json.ordinary p = true ->
  Json.string_tail (p +:+ String dquote r) = Some r.
Proof.
  induction p as [|c p IH]; intros Hp.
  - reflexivity.
  - cbn [Json.ordinary] in Hp. apply andb_true_iff in Hp as [Hc Hp].
    unfold Json.unescaped in Hc.
    apply andb_true_iff in Hc as [Hc Hctl]. apply andb_true_iff in Hc as [Hq Hb].
    rewrite negb_true_iff in Hq, Hb, Hctl.
    cbn [String.append Json.string_tail]. rewrite Hq, Hb, Hctl. now apply IH.
Qed.

Lemma build_error_response_shape (p r : string) :
  build_error_response (p +:+ dq +:+ r)
  = String "{" (String " " (String dquote ("error" +:+ String dquote
      (String ":" (String " " (String dquote
         (p +:+ String dquote (r +:+ String dquote " }")))))))).
Proof.
  unfold build_error_response, dq. cbn [String.append].
  now rewrite !append_assoc.
Qed.

Lemma value_object (fuel : nat) (s : string) :
  Json.value (S fuel) (String "{" s)
  = match Json.expect "}" s with
    | Some r => Some r
    | None => Json.members fuel (Json.skip_ws s)
    end.
Proof. reflexivity. Qed.

Lemma value_string (fuel : nat) (s : string) :
  Json.value (S fuel) (String dquote s) = Json.string_tail s.
Proof. reflexivity. Qed.

Lemma members_unfold (fuel : nat) (s : string) :
  Json.members (S fuel) s
  = (s1 ← Json.json_string s;
     s2 ← Json.expect ":" s1;
     s3 ← Json.value fuel (Json.skip_ws s2);
     match Json.expect "}" s3 with
     | Some r => Some r
     | None => s4 ← Json.expect "," s3; Json.members fuel (Json.skip_ws s4)
     end).
Proof. reflexivity. Qed.

(** A body whose message has an unescaped quotation mark, after ordinary
    characters only and before something that does not continue an object,
    is not a JSON text. *)
Lemma early_quote_invalid (p r : string) :
  Json.ordinary p = true ->
  Json.continues (r +:+ String dquote " }") = false ->
  ~ Json.valid (build_error_response (p +:+ dq +:+ r)).
Proof.
  intros Hp Hr [fuel Hfuel]. rewrite build_error_response_shape in Hfuel.
  unfold Json.continues in Hr.
  destruct (Json.expect "}" (r +:+ String dquote " }")) eqn:H1; [discriminate |].
  destruct (Json.expect "," (r +:+ String dquote " }")) eqn:H2; [discriminate |].
  unfold Json.text in Hfuel.
  change (Json.skip_ws (String "{" ?s)) with (String "{" s) in Hfuel.
  destruct fuel as [|[|[|fuel]]].
  - discriminate.
  - rewrite value_object in Hfuel.
    change (Json.expect "}" (String " " (String dquote ?s))) with (@None string) in Hfuel.
    discriminate.
  - rewrite value_object, members_unfold in Hfuel.
    change (Json.expect "}" (String " " (String dquote ?s))) with (@None string) in Hfuel.
    change (Json.skip_ws (String " " (String dquote ?s))) with (String dquote s) in Hfuel.
    unfold Json.json_string in Hfuel. rewrite Ascii.eqb_refl in Hfuel.
    rewrite (string_tail_ordinary "error") in Hfuel by reflexivity.
    discriminate.
  - rewrite value_object, members_unfold in Hfuel.
    change (Json.expect "}" (String " " (String dquote ?s))) with (@None string) in Hfuel.
    change (Json.skip_ws (String " " (String dquote ?s))) with (String dquote s) in Hfuel.
    unfold Json.json_string in Hfuel. rewrite Ascii.eqb_refl in Hfuel.
    rewrite (string_tail_ordinary "error") in Hfuel by reflexivity.
    cbn [mbind option_bind] in Hfuel.
    change (Json.expect ":" (String ":" ?s)) with (Some s) in Hfuel.
    cbn [mbind option_bind] in Hfuel.
    change (Json.skip_ws (String " " (String dquote ?s))) with (String dquote s) in Hfuel.
    rewrite value_string, (string_tail_ordinary p _ Hp) in Hfuel.
    cbn [mbind option_bind] in Hfuel. now rewrite H1, H2 in Hfuel.
Qed.

(** C2 as written does not hold. A standard error text with quotation
    marks in it (a quotation mark, a comma, the name [a] in quotation
    marks, a colon and a last quotation mark) is put into the body
    unescaped, and the body is a JSON text: an object with the members
    [error] and [a], both empty strings. *)
Lemma quoted_stderr_valid_json :
  char_in dquote (dq +:+ ", " +:+ dq +:+ "a" +:+ dq +:+ ": " +:+ dq) = true
  /\ run_command
       (fun _ => Exited 1 EmptyString (dq +:+ ", " +:+ dq +:+ "a" +:+ dq +:+ ": " +:+ dq))
       "bin/gamesman getstart a b"
     = Return (build_error_response (dq +:+ ", " +:+ dq +:+ "a" +:+ dq +:+ ": " +:+ dq))
  /\ Json.valid (build_error_response (dq +:+ ", " +:+ dq +:+ "a" +:+ dq +:+ ": " +:+ dq)).
Proof.
  repeat split. exists 4. reflexivity.
Qed.

End ErrorBody.

(** ** The pattern of binary literals *)

Section BinaryPattern.

Import Re Literal.

Lemma compile_binary_pattern :
  compile Convert.binary_pattern = Return binary_items.
Proof. reflexivity. Qed.

Lemma match_bits_unfold (c : ascii) (s : string) :
  match_at [bit_item] (String c s)
  = if is_bit c then
      match match_at [bit_item] s with
      | Some m => Some (String c m)
      | None => Some (String c EmptyString)
      end
    else None.
Proof. reflexivity. Qed.

(** The repeated set takes all the bits there are, and needs one. *)
Lemma match_bits (s : string) :
  match_at [bit_item] s = if is_empty (bits s) then None else Some (bits s).
Proof.
  induction s as [|c s IH]; [reflexivity |].
  rewrite match_bits_unfold, IH. cbn [bits].
  destruct (is_bit c); [|reflexivity].
  now destruct (bits s).
Qed.

Lemma match_binary_unfold (s : string) :
  match_at binary_items s
  = match s with
    | String "0" (String "b" t) =>
        cons_match "0" (cons_match "b" (match_at [bit_item] t))
    | _ => None
    end.
Proof.
  destruct s as [|c0 [|c1 t]]; cbn [match_at binary_items quant chars char_in].
  - reflexivity.
  - destruct (Ascii.eqb_spec c0 "0") as [->|Hne]; [reflexivity |].
    destruct c0 as [[] [] [] [] [] [] [] []]; try reflexivity; now contradiction Hne.
  - destruct (Ascii.eqb_spec c0 "0") as [->|Hne].
    + destruct (Ascii.eqb_spec c1 "b") as [->|Hne]; [reflexivity |].
      destruct c1 as [[] [] [] [] [] [] [] []]; try reflexivity; now contradiction Hne.
    + destruct c0 as [[] [] [] [] [] [] [] []]; try reflexivity; now contradiction Hne.
Qed.

(** What the pattern matches: the prefix [0b] and all the bits after it,
    when there is at least one. *)
Lemma match_binary (s m : string) :
  match_at binary_items s = Some m <->
  exists t, s = "0b" +:+ t /\ bits t <> EmptyString /\ m = "0b" +:+ bits t.
Proof.
  rewrite match_binary_unfold. split.
  - destruct s as [|c0 [|c1 t]]; try discriminate.
    + destruct c0 as [[] [] [] [] [] [] [] []]; discriminate.
    + destruct c0 as [[] [] [] [] [] [] [] []]; try discriminate.
      destruct c1 as [[] [] [] [] [] [] [] []]; try discriminate.
      rewrite match_bits. intros H. exists t.
      destruct (bits t) as [|b bs]; [discriminate |].
      cbn in H. injection H as <-. repeat split. discriminate.
  - intros (t & -> & Hne & ->). cbn [String.append]. rewrite match_bits.
    destruct (bits t); [now contradiction Hne | reflexivity].
Qed.

Lemma bits_are_bits (s : string) (c : ascii) :
  char_in c (bits s) = true -> is_bit c = true.
Proof.
  induction s as [|d s IH]; cbn [bits]; [discriminate |].
  destruct (is_bit d) eqn:Hd; [|discriminate].
  cbn [char_in]. destruct (Ascii.eqb_spec c d) as [->|_]; [now intros _ | exact IH].
Qed.

(** A text is its leading bits and the rest, which starts with no bit. *)
Lemma bits_split (s : string) :
  s = bits s +:+ drop_chars (String.length (bits s)) s
  /\ starts_with_bit (drop_chars (String.length (bits s)) s) = false.
Proof.
  induction s as [|c s [IH1 IH2]]; [now split |].
  cbn [bits]. destruct (is_bit c) eqn:Hc.
  - cbn [String.length drop_chars String.append]. split; [now rewrite <- IH1 | exact IH2].
  - split; [reflexivity |]. cbn. exact Hc.
Qed.

Lemma starts_iff (s : string) :
  starts s = true <-> exists m, match_at binary_items s = Some m.
Proof.
  split.
  - destruct s as [|c0 [|c1 [|c2 t]]]; cbn [starts]; try discriminate.
    + destruct c0 as [[] [] [] [] [] [] [] []]; discriminate.
    + destruct c0 as [[] [] [] [] [] [] [] []]; try discriminate.
      destruct c1 as [[] [] [] [] [] [] [] []]; discriminate.
    + destruct c0 as [[] [] [] [] [] [] [] []]; try discriminate.
      destruct c1 as [[] [] [] [] [] [] [] []]; try discriminate.
      intros Hc. eexists. apply match_binary. eexists. split; [reflexivity |].
      split; [|reflexivity]. cbn [bits]. now rewrite Hc.
  - intros (m & Hm). apply match_binary in Hm as (t & -> & Hne & _).
    destruct t as [|c t]; [now contradiction Hne |].
    cbn [bits] in Hne. change (starts ("0b" +:+ String c t)) with (is_bit c).
    destruct (is_bit c); [reflexivity | now contradiction Hne].
Qed.

End BinaryPattern.

(** ** [int] and [hex] on literals *)

Section Conversion.

Import Builtins Literal Convert.

Lemma is_bit_cases (c : ascii) : is_bit c = true -> c = "0"%char \/ c = "1"%char.
Proof.
  unfold is_bit. cbn [char_in].
  destruct (Ascii.eqb_spec c "0"); [now left |].
  destruct (Ascii.eqb_spec c "1"); [now right | discriminate].
Qed.

Lemma positional_snoc (base : Z) (ds : list Z) (d : Z) :
  positional base (ds ++ [d])%list = (positional base ds * base + d)%Z.
Proof.
  induction ds as [|x ds IH]; cbn [positional app List.length].
  - cbn. lia.
  - rewrite IH, length_app. cbn [List.length].
    replace (Z.of_nat (List.length ds + 1)) with (Z.succ (Z.of_nat (List.length ds))) by lia.
    rewrite Z.pow_succ_r by lia. lia.
Qed.

Lemma digit_values_snoc (alphabet s : string) (c : ascii) (ds : list Z) (d : Z) :
  digit_values alphabet s = Some ds ->
  index_of c alphabet 0 = Some d ->
  digit_values alphabet (snoc s c) = Some (ds ++ [d])%list.
Proof.
  revert ds. induction s as [|x s IH]; intros ds Hs Hc.
  - injection Hs as <-. cbn. now rewrite Hc.
  - change (snoc (String x s) c) with (String x (snoc s c)).
    cbn [digit_values] in *.
    destruct (index_of x alphabet 0) as [dx|]; [|discriminate]. cbn in *.
    destruct (digit_values alphabet s) as [ds'|]; [|discriminate]. cbn in *.
    injection Hs as <-. now rewrite (IH ds' eq_refl Hc).
Qed.

(** The binary digits that [int] reads are the digits of the literal. *)
Lemma parse_bits (bs : string) (acc : Z) :
  (forall c, char_in c bs = true -> is_bit c = true) ->
  exists ds,
    digit_values "01" bs = Some ds
    /\ parse_digits 2 bs acc
       = Some (acc * 2 ^ Z.of_nat (List.length ds) + positional 2 ds)%Z
    /\ (0 <= positional 2 ds)%Z.
Proof.
  revert acc. induction bs as [|c bs IH]; intros acc Hbits.
  - exists []. cbn. repeat split; [f_equal; lia | lia].
  - assert (Hc : is_bit c = true).
    { apply Hbits. cbn [char_in]. now rewrite Ascii.eqb_refl. }
    assert (Hbs : forall d, char_in d bs = true -> is_bit d = true).
    { intros d Hd. apply Hbits. cbn [char_in]. rewrite Hd. now destruct (Ascii.eqb d c). }
    apply is_bit_cases in Hc as [-> | ->].
    + destruct (IH (acc * 2 + 0)%Z Hbs) as (ds & Hds & Hparse & Hpos).
      exists (0%Z :: ds). cbn [digit_values parse_digits].
      change (digit_value "0") with (Some 0%Z). change (index_of "0" "01" 0) with (Some 0%Z).
      rewrite Hds. change (0 <? 2)%Z with true. cbn [mbind option_bind].
      rewrite Hparse. cbn [positional List.length].
      rewrite Nat2Z.inj_succ, Z.pow_succ_r by lia.
      repeat split; [f_equal; lia | lia].
    + destruct (IH (acc * 2 + 1)%Z Hbs) as (ds & Hds & Hparse & Hpos).
      exists (1%Z :: ds). cbn [digit_values parse_digits].
      change (digit_value "1") with (Some 1%Z). change (index_of "1" "01" 0) with (Some 1%Z).
      rewrite Hds. change (1 <? 2)%Z with true. cbn [mbind option_bind].
      rewrite Hparse. cbn [positional List.length].
      rewrite Nat2Z.inj_succ, Z.pow_succ_r by lia.
      assert (0 <= 2 ^ Z.of_nat (List.length ds))%Z by (apply Z.pow_nonneg; lia).
      repeat split; [f_equal; lia | lia].
Qed.

(** [int] on a binary literal gives the number it denotes. *)
Lemma int_binary_literal (bs : string) :
  bs <> EmptyString ->
  (forall c, char_in c bs = true -> is_bit c = true) ->
  exists v, int ("0b" +:+ bs) 2 = Return v
            /\ (0 <= v)%Z
            /\ binary_literal ("0b" +:+ bs) = Some v.
Proof.
  intros Hne Hbits. destruct (parse_bits bs 0 Hbits) as (ds & Hds & Hparse & Hpos).
  exists (positional 2 ds).
  unfold int, binary_literal, denotation. cbn [String.append strip_prefix].
  change (prefix_letter 2 "b") with true. cbn iota.
  destruct bs as [|b bs]; [now contradiction Hne |].
  cbn [is_empty negb andb]. rewrite Hparse, Hds.
  change (Ascii.eqb "b" "b") with true. cbn [andb fmap option_fmap option_map].
  change (Z.of_nat (String.length "01")) with 2%Z.
  repeat split; [f_equal; lia | exact Hpos].
Qed.

Lemma hex_digit_index (d : N) :
  (d < 16)%N -> index_of (hex_digit d) hex_alphabet 0 = Some (Z.of_N d).
Proof.
  intros Hd. destruct d as [|p]; [reflexivity |].
  do 4 (try (destruct p as [p|p|])); try reflexivity; lia.
Qed.

(** The digits that [hex] writes denote the number, and there is one at
    least. *)
Lemma hex_digits_denote (n : N) :
  exists ds, digit_values hex_alphabet (hex_digits n) = Some ds
             /\ positional 16 ds = Z.of_N n
             /\ is_empty (hex_digits n) = false.
Proof.
  funelim (hex_digits n).
  - exists [Z.of_N n]. cbn [digit_values]. rewrite hex_digit_index by assumption.
    cbn. repeat split. lia.
  - match goal with
    | IH : exists _, _ |- _ => destruct IH as (ds & Hds & Hval & Hne)
    end.
    exists (ds ++ [Z.of_N (n mod 16)])%list. repeat split.
    + apply digit_values_snoc; [exact Hds |].
      apply hex_digit_index. apply N.mod_lt. lia.
    + rewrite positional_snoc, Hval.
      rewrite (N.div_mod n 16) at 3 by lia. lia.
    + unfold snoc. rewrite is_empty_append. cbn. apply andb_false_r.
Qed.

(** [hex] of a natural number is a hexadecimal literal for it. *)
Lemma hex_literal_hex (v : Z) :
  (0 <= v)%Z ->
  hex v = "0x" +:+ hex_digits (Z.to_N v) /\ hex_literal (hex v) = Some v.
Proof.
  intros Hv.
  assert (Hhex : hex v = "0x" +:+ hex_digits (Z.to_N v)) by (destruct v; [reflexivity.. | lia]).
  split; [exact Hhex |]. rewrite Hhex.
  destruct (hex_digits_denote (Z.to_N v)) as (ds & Hds & Hval & Hne).
  unfold hex_literal, denotation. cbn [String.append].
  change (Ascii.eqb "x" "x") with true. rewrite Hne. cbn [negb andb].
  rewrite Hds. cbn [fmap option_fmap option_map].
  change (Z.of_nat (String.length hex_alphabet)) with 16%Z.
  f_equal. rewrite Hval. lia.
Qed.

(** The replacement of a binary literal is a hexadecimal literal for the
    same number. *)
Lemma binary_to_hex_literal (bs : string) :
  bs <> EmptyString ->
  (forall c, char_in c bs = true -> is_bit c = true) ->
  exists v, binary_to_hex ("0b" +:+ bs) = Return ("0x" +:+ hex_digits (Z.to_N v))
            /\ binary_literal ("0b" +:+ bs) = Some v
            /\ hex_literal ("0x" +:+ hex_digits (Z.to_N v)) = Some v.
Proof.
  intros Hne Hbits.
  destruct (int_binary_literal bs Hne Hbits) as (v & Hint & Hv & Hlit).
  destruct (hex_literal_hex v Hv) as [Hhex Hden].
  exists v. unfold binary_to_hex. rewrite Hint. cbn [mbind result_bind mret result_ret].
  rewrite <- Hhex. now repeat split.
Qed.

End Conversion.

(** ** The substitution *)

Section Substitution.

Import Re Literal Convert Frame.

Variable re : list item.
Variable repl : string -> result string.

Lemma sub_from_end :
  match_at re EmptyString = None -> sub_from re repl EmptyString = Return EmptyString.
Proof. intros H. rewrite sub_from_equation_1, H. reflexivity. Qed.

Lemma sub_from_copy (c : ascii) (s : string) :
  match_at re (String c s) = None ->
  sub_from re repl (String c s) = out ← sub_from re repl s; mret (String c out).
Proof. intros H. rewrite sub_from_equation_2, H. reflexivity. Qed.

Lemma sub_from_replace (c : ascii) (s : string) (a : ascii) (m : string) :
  match_at re (String c s) = Some (String a m) ->
  sub_from re repl (String c s)
  = r ← repl (String a m);
    out ← sub_from re repl (drop_chars (String.length m) s);
    mret (r +:+ out).
Proof. intros H. rewrite sub_from_equation_2, H. reflexivity. Qed.

End Substitution.

Section BinaryToHex.

Import Builtins Re Literal Convert Frame.

(** The substitution of [convert.py] cuts the text into matches of the
    pattern, each replaced by a hexadecimal equivalent, and characters
    that are copied. *)
Lemma sub_binary (n : nat) :
  forall s, String.length s <= n ->
  exists chunks,
    source chunks = s
    /\ sub_from binary_items binary_to_hex s = Return (target chunks)
    /\ matches binary_items chunks
    /\ rewritten s (target chunks).
Proof.
  induction n as [|n IH]; intros s Hlen.
  - destruct s; [|cbn in Hlen; lia].
    exists []. split; [reflexivity |]. split; [now apply sub_from_end |].
    split; [exact I | constructor].
  - destruct s as [|c s].
    { exists []. split; [reflexivity |]. split; [now apply sub_from_end |].
      split; [exact I | constructor]. }
    cbn [String.length] in Hlen.
    destruct (match_at binary_items (String c s)) as [m|] eqn:Hm.
    + pose proof Hm as Hshape. apply match_binary in Hshape as (t & Hs & Hne & ->).
      cbn [String.append] in Hs. injection Hs as -> ->.
      destruct (bits_split t) as [Ht Hrest].
      set (rest := drop_chars (String.length (bits t)) t) in *.
      assert (Hbits : forall c, char_in c (bits t) = true -> is_bit c = true)
        by (intros c; apply bits_are_bits).
      destruct (binary_to_hex_literal (bits t) Hne Hbits) as (v & Hhex & Hbin & Hden).
      destruct (IH rest) as (chunks & Hsrc & Hsub & Hmatch & Hrw).
      { assert (String.length t = String.length (bits t) + String.length rest)
          by (rewrite Ht at 1; apply length_append).
        cbn [String.length] in Hlen. lia. }
      assert (Hs : String "0" (String "b" t) = ("0b" +:+ bits t) +:+ rest).
      { cbn [String.append]. now rewrite <- Ht. }
      exists (Replaced ("0b" +:+ bits t) ("0x" +:+ hex_digits (Z.to_N v)) :: chunks).
      cbn [source target before after matches]. rewrite Hsrc, <- Hs.
      repeat split; try assumption.
      * rewrite (sub_from_replace _ _ _ _ "0" ("b" +:+ bits t)) by exact Hm.
        change (String "0" ("b" +:+ bits t)) with ("0b" +:+ bits t).
        rewrite Hhex. cbn [mbind result_bind String.append String.length drop_chars].
        fold rest. rewrite Hsub. reflexivity.
      * rewrite Hs. apply rewritten_literal; [|now exists v | exact Hrw].
        now constructor.
    + destruct (IH s) as (chunks & Hsrc & Hsub & Hmatch & Hrw); [lia |].
      exists (Kept (String c EmptyString) :: chunks).
      cbn [source target before after matches String.append]. rewrite Hsrc.
      repeat split; try assumption.
      * rewrite sub_from_copy by exact Hm. now rewrite Hsub.
      * apply rewritten_copy; [|exact Hrw].
        destruct (starts (String c s)) eqn:Hst; [|reflexivity].
        apply starts_iff in Hst as (m & Hm'). congruence.
Qed.

Lemma sub_binary_pattern (content : string) :
  exists chunks,
    source chunks = content
    /\ Re.sub binary_pattern binary_to_hex content = Return (target chunks)
    /\ matches binary_items chunks
    /\ rewritten content (target chunks).
Proof.
  unfold Re.sub. rewrite compile_binary_pattern. cbn [mbind result_bind].
  now apply (sub_binary (String.length content)).
Qed.

Lemma index_of_in (c : ascii) (alphabet : string) (i d : Z) :
  index_of c alphabet i = Some d -> char_in c alphabet = true.
Proof.
  revert i. induction alphabet as [|a alphabet IH]; intros i; cbn; [discriminate |].
  destruct (Ascii.eqb c a); [reflexivity | apply IH].
Qed.

Lemma digit_values_in (alphabet s : string) (ds : list Z) (c : ascii) :
  digit_values alphabet s = Some ds -> char_in c s = true -> char_in c alphabet = true.
Proof.
  revert ds. induction s as [|x s IH]; intros ds Hds Hc; [discriminate |].
  cbn [digit_values] in Hds.
  destruct (index_of x alphabet 0) as [d|] eqn:Hx; [|discriminate]. cbn in Hds.
  destruct (digit_values alphabet s) as [ds'|] eqn:Hs; [|discriminate].
  cbn [char_in] in Hc. destruct (Ascii.eqb_spec c x) as [->|_].
  - eapply index_of_in; exact Hx.
  - eapply IH; [reflexivity | exact Hc].
Qed.

(** C9. The text that replaces a match of the pattern [0b[01]+] is a
    hexadecimal literal, [0x] and then lowercase hexadecimal digits, that
    denotes the same number as the binary literal matched. *)
Theorem binary_to_hex_preserves_value (items : list item) (s m : string) :
  Re.compile binary_pattern = Return items ->
  match_at items s = Some m ->
  exists h v digits,
    binary_to_hex m = Return h
    /\ binary_literal m = Some v
    /\ hex_literal h = Some v
    /\ h = "0x" +:+ digits
    /\ digits <> EmptyString
    /\ (forall c, char_in c digits = true -> char_in c "0123456789abcdef" = true).
Proof.
  rewrite compile_binary_pattern. intros [= <-] Hm.
  apply match_binary in Hm as (t & -> & Hne & ->).
  destruct (binary_to_hex_literal (bits t) Hne) as (v & Hhex & Hbin & Hden).
  { intros c. apply bits_are_bits. }
  exists ("0x" +:+ hex_digits (Z.to_N v)), v, (hex_digits (Z.to_N v)).
  repeat split; try assumption.
  - destruct (hex_digits_denote (Z.to_N v)) as (ds & _ & _ & Hd).
    intros Hempty. now rewrite Hempty in Hd.
  - intros c Hc. destruct (hex_digits_denote (Z.to_N v)) as (ds & Hds & _ & _).
    eapply digit_values_in; [exact Hds | exact Hc].
Qed.

Lemma binary_to_hex_preserves_value_witness :
  exists h v digits,
    binary_to_hex "0b101101" = Return h
    /\ binary_literal "0b101101" = Some v
    /\ hex_literal h = Some v
    /\ h = "0x" +:+ digits
    /\ digits <> EmptyString
    /\ (forall c, char_in c digits = true -> char_in c "0123456789abcdef" = true).
Proof.
  apply (binary_to_hex_preserves_value binary_items "0b101101ULL;" "0b101101");
    reflexivity.
Defined.



End BinaryToHex.

(** ** What the command runner keeps of the child *)

Section Streams.

Import Subprocess Server.



End Streams.

(** ** Quotation marks and blanks in a segment *)

Section Quoting.

Import Subprocess Server Flask Request Shlex Word Text.

Lemma tokens_quoted_chars (w rest token : string) (quoted : bool) (esc : lex_state) :
  char_in squote w = false ->
  tokens (w +:+ String squote rest) (StQuote squote) token quoted esc
  = tokens rest StWord (token +:+ w) true esc.
Proof.
  revert token quoted. induction w as [|c w IH]; intros token quoted Hw.
  - cbn [String.append tokens]. rewrite Ascii.eqb_refl. now rewrite append_empty_r.
  - cbn [char_in] in Hw. destruct (Ascii.eqb squote c) eqn:Hc; [discriminate |].
    cbn [String.append tokens]. rewrite Ascii.eqb_sym, Hc.
    change (char_in squote escapedquotes) with false. rewrite andb_false_r.
    rewrite IH by assumption. now rewrite snoc_append.
Qed.



(** The tokens of a command whose last segment is arbitrary. *)
Lemma split_getstart_prefix (game_name variant_id : string) :
  word game_name = true ->
  split (getstart_command game_name variant_id)
  = toks ← tokens variant_id StWhite EmptyString false StWhite;
    mret ("bin/gamesman" :: "getstart" :: game_name :: toks).
Proof.
  intros Hg. unfold split, getstart_command.
  change ("bin/gamesman getstart " +:+ game_name +:+ " " +:+ variant_id)
    with ("bin/gamesman" +:+ String " " ("getstart" +:+ String " "
            (game_name +:+ String " " variant_id))).
  rewrite !tokens_word_blank by (assumption || reflexivity).
  now destruct (tokens _ _ _ _ _).
Qed.







(** X4. The segments are not kept apart in the command. A blank inside a
    segment starts a new argument, and two requests whose segments differ
    only in where the blanks fall run the same command and get the same
    answer. *)
Theorem blank_splits_a_segment (os : system) (game_name a b c : string) :
  word game_name = true -> word a = true -> word b = true ->
  split (getstart_command game_name (a +:+ " " +:+ b))
  = Return ["bin/gamesman"; "getstart"; game_name; a; b]
  /\ query_command (a +:+ " " +:+ b) c game_name
     = query_command a (b +:+ " " +:+ c) game_name
  /\ query os (a +:+ " " +:+ b) c game_name = query os a (b +:+ " " +:+ c) game_name.
Proof.
  intros Wg Wa Wb.
  assert (Hcmd : query_command (a +:+ " " +:+ b) c game_name
                 = query_command a (b +:+ " " +:+ c) game_name).
  { unfold query_command. now rewrite !append_assoc. }
  repeat split.
  - rewrite split_getstart_prefix by assumption.
    change (a +:+ " " +:+ b) with (a +:+ String " " b).
    now rewrite tokens_word_blank, tokens_word_last by assumption.
  - exact Hcmd.
  - unfold query. now rewrite Hcmd.
Qed.

Lemma blank_splits_a_segment_witness :
  split (getstart_command "quixo" "regular --help")
  = Return ["bin/gamesman"; "getstart"; "quixo"; "regular"; "--help"].
Proof.
  apply (blank_splits_a_segment (fun _ => Failed (ENOENT "bin/gamesman"))
           "quixo" "regular" "--help" "c");
    reflexivity.
Defined.

End Quoting.

(** ** Commands without quoting *)

Section Unquoted.

Import Subprocess Server Shlex Word Text.

Lemma plain_snoc (s : string) (c : ascii) :
  plain s = true -> plain_char c = true -> plain (snoc s c) = true.
Proof.
  intros Hs Hc. induction s as [|x s IH].
  - cbn. now rewrite Hc.
  - cbn [plain] in Hs. apply andb_true_iff in Hs as [Hx Hs].
    change (snoc (String x s) c) with (String x (snoc s c)). cbn [plain].
    now rewrite Hx, IH.
Qed.

Lemma word_snoc (s : string) (c : ascii) :
  plain s = true -> plain_char c = true -> word (snoc s c) = true.
Proof.
  intros Hs Hc. unfold word. rewrite plain_snoc by assumption.
  unfold snoc. rewrite is_empty_append. cbn. now rewrite andb_false_r.
Qed.

Lemma unquoted_append (a b : string) :
  unquoted (a +:+ b) = unquoted a && unquoted b.
Proof.
  induction a as [|x a IH]; [reflexivity |].
  cbn [String.append unquoted]. now rewrite IH, !andb_assoc.
Qed.

(** Without quoting the lexer cannot fail, and its tokens are words. *)
Lemma tokens_unquoted (s : string) :
  forall state token esc,
    unquoted s = true ->
    (state = StWhite /\ token = EmptyString) \/ (state = StWord /\ word token = true) ->
    exists argv,
      tokens s state token false esc = Return argv
      /\ Forall (fun t => word t = true) argv.
Proof.
  induction s as [|c s IH]; intros state token esc Hs Hstate.
  - destruct Hstate as [[-> ->] | [-> Hw]].
    + exists []. split; [reflexivity | constructor].
    + exists [token]. split; [|now repeat constructor].
      cbn [tokens]. unfold emit, word in *.
      apply andb_true_iff in Hw as [-> _]. reflexivity.
  - cbn [unquoted] in Hs. apply andb_true_iff in Hs as [Hc Hs].
    apply andb_true_iff in Hc as [Hq He]. rewrite negb_true_iff in Hq, He.
    destruct (char_in c whitespace) eqn:Hws.
    + destruct Hstate as [[-> ->] | [-> Hw]]; cbn [tokens]; rewrite Hws.
      * cbn [is_empty negb orb]. apply IH; [assumption | now left].
      * pose proof Hw as Hw'. unfold word in Hw'.
        apply andb_true_iff in Hw' as [Hne _]. rewrite Hne. cbn [orb].
        destruct (IH StWhite EmptyString StWhite Hs) as (argv & Hargv & Hall);
          [now left |].
        exists (token :: argv). unfold emit. rewrite Hne, Hargv. cbn.
        split; [reflexivity | now constructor].
    + assert (Hplain : plain_char c = true).
      { unfold plain_char. now rewrite Hws, Hq, He. }
      destruct Hstate as [[-> ->] | [-> Hw]]; cbn [tokens]; rewrite Hws, ?Hq, He.
      * assert (Hone : word (String c EmptyString) = true).
        { unfold word. cbn. now rewrite Hplain. }
        destruct (wordchars c); apply IH; auto.
      * apply IH; [assumption |]. right. split; [reflexivity |].
        apply word_snoc; [|assumption]. unfold word in Hw.
        now apply andb_true_iff in Hw as [_ ->].
Qed.

(** X5. A command without quotation marks and backslashes is always
    split, and into words: the lexer does not fail on it, and the result
    of the view is what [run_command] makes of what the system does with
    these words, a fault of starting or running the child included. *)
Theorem unquoted_command_reaches_child (os : system)
    (game_name variant_id position : string) :
  unquoted game_name = true -> unquoted variant_id = true ->
  unquoted position = true ->
  (exists argv,
      split (getstart_command game_name variant_id) = Return argv
      /\ Forall (fun t => word t = true) argv
      /\ getstart os game_name variant_id
         = match os argv with
           | Failed f => Raise (exn_of_fault f)
           | Exited rc out err =>
               if (rc =? 0)%Z then Return out else Return (build_error_response err)
           end)
  /\ (exists argv,
        split (query_command game_name variant_id position) = Return argv
        /\ Forall (fun t => word t = true) argv
        /\ query os game_name variant_id position
           = match os argv with
             | Failed f => Raise (exn_of_fault f)
             | Exited rc out err =>
                 if (rc =? 0)%Z then Return out else Return (build_error_response err)
             end).
Proof.
  intros Hg Hv Hp. split.
  - destruct (tokens_unquoted (getstart_command game_name variant_id)
                StWhite EmptyString StWhite) as (argv & Hargv & Hall).
    { unfold getstart_command. rewrite !unquoted_append, Hg, Hv. reflexivity. }
    { now left. }
    exists argv. repeat split; try assumption.
    unfold getstart. rewrite run_command_cases. unfold split in Hargv |- *.
    now rewrite Hargv.
  - destruct (tokens_unquoted (query_command game_name variant_id position)
                StWhite EmptyString StWhite) as (argv & Hargv & Hall).
    { unfold query_command. rewrite !unquoted_append, Hg, Hv, Hp. reflexivity. }
    { now left. }
    exists argv. repeat split; try assumption.
    unfold query. rewrite run_command_cases. unfold split in Hargv |- *.
    now rewrite Hargv.
Qed.

Lemma unquoted_command_reaches_child_witness :
  exists argv,
    split (getstart_command "a  b;c" "1|2 3") = Return argv
    /\ Forall (fun t => word t = true) argv
    /\ getstart (fun _ => Exited 0 "ok" EmptyString) "a  b;c" "1|2 3"
       = match (fun _ : list string => Exited 0 "ok" EmptyString) argv with
         | Failed f => Raise (exn_of_fault f)
         | Exited rc out err =>
             if (rc =? 0)%Z then Return out else Return (build_error_response err)
         end.
Proof.
  apply (unquoted_command_reaches_child (fun _ => Exited 0 "ok" EmptyString)
           "a  b;c" "1|2 3" "p");
    reflexivity.
Defined.

End Unquoted.

(** ** Paths and routes *)

Section RoutesAndPaths.

Import Flask Request Text.

Lemma is_empty_true_string (s : string) : is_empty s = true -> s = EmptyString.
Proof. now destruct s. Qed.

Lemma split_slash_not_nil (path seg : string) : split_slash path seg <> [].
Proof.
  revert seg. induction path as [|c path IH]; intros seg; cbn [split_slash].
  - discriminate.
  - destruct (Ascii.eqb c "/"); [discriminate | apply IH].
Qed.

(** Splitting a path at the slashes loses nothing. *)
Lemma split_slash_join (path seg : string) :
  join_slash (split_slash path seg) = seg +:+ path.
Proof.
  revert seg. induction path as [|c path IH]; intros seg; cbn [split_slash].
  - cbn. now rewrite append_empty_r.
  - destruct (Ascii.eqb_spec c "/") as [-> | Hc].
    + cbn [join_slash]. pose proof (split_slash_not_nil path EmptyString) as Hnil.
      destruct (split_slash path EmptyString) as [|s l] eqn:Hsplit; [now contradiction Hnil |].
      rewrite <- Hsplit, IH. reflexivity.
    + rewrite IH. apply snoc_append.
Qed.

Lemma no_slash_snoc (seg : string) (c : ascii) :
  char_in "/" seg = false -> c <> "/"%char -> char_in "/" (snoc seg c) = false.
Proof.
  intros Hseg Hc. induction seg as [|x seg IH].
  - unfold snoc. cbn [String.append char_in].
    destruct (Ascii.eqb_spec "/" c); [congruence | reflexivity].
  - cbn [char_in] in Hseg. change (snoc (String x seg) c) with (String x (snoc seg c)).
    cbn [char_in]. destruct (Ascii.eqb "/" x); [discriminate | now apply IH].
Qed.

Lemma split_slash_no_slash (path seg : string) :
  char_in "/" seg = false ->
  Forall (fun s => char_in "/" s = false) (split_slash path seg).
Proof.
  revert seg. induction path as [|c path IH]; intros seg Hseg; cbn [split_slash].
  - now repeat constructor.
  - destruct (Ascii.eqb_spec c "/") as [-> | Hc].
    + constructor; [assumption | now apply IH].
    + apply IH. now apply no_slash_snoc.
Qed.

Lemma segment_intro (s : string) :
  converts s = true -> char_in "/" s = false -> segment s = true.
Proof. unfold converts, segment. now intros -> ->. Qed.

(** The two rules of [server.py] as [url_match] reads them: a path
    matches the first with two values exactly when it is a slash, the
    first value, a slash, the second value and a slash, the values being
    segments; it matches the second with three values exactly when it is
    the three segments with a slash before each. *)
Lemma rules_invert_paths (path game_name variant_id position : string) :
  (url_match path = ToGetstart game_name variant_id
   <-> path = getstart_path game_name variant_id
       /\ segment game_name = true /\ segment variant_id = true)
  /\ (url_match path = ToQuery game_name variant_id position
      <-> path = query_path game_name variant_id position
          /\ segment game_name = true /\ segment variant_id = true
          /\ segment position = true).
Proof.
  assert (Hjoin := split_slash_join path EmptyString).
  change (EmptyString +:+ path) with path in Hjoin.
  assert (Hslash := split_slash_no_slash path EmptyString eq_refl).
  split; split.
  - unfold url_match. intros Hm.
    destruct (split_slash path EmptyString) as [|s0 [|s1 [|s2 [|s3 [|s4 l]]]]];
      try discriminate; destruct s0; try discriminate;
      destruct (converts s1 && converts s2) eqn:Hconv; try discriminate.
    destruct (is_empty s3) eqn:Hlast; [|discriminate].
    injection Hm as -> ->. apply is_empty_true_string in Hlast. subst s3.
    apply andb_true_iff in Hconv as [Cg Cv].
    inversion Hslash as [|? ? _ Hs1]; subst. inversion Hs1 as [|? ? Sg Hs2]; subst.
    inversion Hs2 as [|? ? Sv _]; subst.
    split; [|split; now apply segment_intro].
    unfold getstart_path. cbn [join_slash String.append]. reflexivity.
  - intros (-> & Hg & Hv). now apply url_match_getstart_path.
  - unfold url_match. intros Hm.
    destruct (split_slash path EmptyString) as [|s0 [|s1 [|s2 [|s3 [|s4 l]]]]];
      try discriminate; destruct s0; try discriminate;
      destruct (converts s1 && converts s2) eqn:Hconv; try discriminate.
    destruct (is_empty s3) eqn:Hlast; [discriminate |].
    injection Hm as -> -> ->.
    apply andb_true_iff in Hconv as [Cg Cv].
    inversion Hslash as [|? ? _ Hs1]; subst. inversion Hs1 as [|? ? Sg Hs2]; subst.
    inversion Hs2 as [|? ? Sv Hs3]; subst. inversion Hs3 as [|? ? Sp _]; subst.
    split; [|repeat split; apply segment_intro; try assumption;
             unfold converts; now rewrite Hlast].
    reflexivity.
  - intros (-> & Hg & Hv & Hp). now apply url_match_query_path.
Qed.

End RoutesAndPaths.

(** ** The error body as a JSON text *)

Section ErrorBodyJson.

Import Subprocess Server Text.

Lemma append_cancel_r (a b s : string) : a +:+ s = b +:+ s -> a = b.
Proof.
  revert b. induction a as [|x a IH]; intros [|y b] H.
  - reflexivity.
  - apply (f_equal String.length) in H. cbn [String.append] in H.
    cbn [String.length] in H. rewrite length_append in H. lia.
  - apply (f_equal String.length) in H. cbn [String.append] in H.
    cbn [String.length] in H. rewrite length_append in H. lia.
  - cbn [String.append] in H. injection H as -> H. f_equal. now apply IH.
Qed.

(** X7. The message can be read back from an error body: two messages
    with the same body are the same message, and the body is fifteen
    characters longer than the message. *)
Theorem build_error_response_injective (a b : string) :
  (build_error_response a = build_error_response b <-> a = b)
  /\ String.length (build_error_response a) = String.length a + 15.
Proof.
  split; [split |].
  - unfold build_error_response, dq. cbn [String.append]. intros H.
    injection H as H. now apply append_cancel_r in H.
  - now intros ->.
  - unfold build_error_response. rewrite !length_append. cbn [String.length dq]. lia.
Qed.

Lemma build_error_response_string (m : string) :
  build_error_response m
  = String "{" (String " " (String dquote ("error" +:+ String dquote
      (String ":" (String " " (String dquote (m +:+ String dquote " }"))))))).
Proof. unfold build_error_response, dq. reflexivity. Qed.

(** The body is a JSON text exactly when the message, followed by the
    closing quotation mark, the space and the brace, ends the string and
    the object. *)
Lemma error_body_text (m : string) (fuel : nat) :
  Json.text (S (S (S fuel))) (build_error_response m)
  = match Json.string_tail (m +:+ String dquote " }") with
    | Some s3 =>
        match
          match Json.expect "}" s3 with
          | Some r => Some r
          | None =>
              s4 ← Json.expect "," s3; Json.members (S fuel) (Json.skip_ws s4)
          end
        with
        | Some r => is_empty (Json.skip_ws r)
        | None => false
        end
    | None => false
    end.
Proof.
  rewrite build_error_response_string. unfold Json.text.
  change (Json.skip_ws (String "{" ?s)) with (String "{" s).
  rewrite value_object, members_unfold.
  change (Json.expect "}" (String " " (String dquote ?s))) with (@None string).
  change (Json.skip_ws (String " " (String dquote ?s))) with (String dquote s).
  unfold Json.json_string. rewrite Ascii.eqb_refl.
  rewrite (string_tail_ordinary "error") by reflexivity.
  cbn [mbind option_bind].
  change (Json.expect ":" (String ":" ?s)) with (Some s).
  cbn [mbind option_bind].
  change (Json.skip_ws (String " " (String dquote ?s))) with (String dquote s).
  rewrite value_string.
  now destruct (Json.string_tail (m +:+ String dquote " }")).
Qed.

Lemma unterminated_message_invalid (m : string) :
  Json.string_tail (m +:+ String dquote " }") = None ->
  ~ Json.valid (build_error_response m).
Proof.
  intros Htail [fuel Hfuel].
  destruct fuel as [|[|[|fuel]]].
  - discriminate.
  - rewrite build_error_response_string in Hfuel. unfold Json.text in Hfuel.
    change (Json.skip_ws (String "{" ?s)) with (String "{" s) in Hfuel.
    rewrite value_object in Hfuel.
    change (Json.expect "}" (String " " (String dquote ?s))) with (@None string) in Hfuel.
    discriminate.
  - rewrite build_error_response_string in Hfuel. unfold Json.text in Hfuel.
    change (Json.skip_ws (String "{" ?s)) with (String "{" s) in Hfuel.
    rewrite value_object, members_unfold in Hfuel.
    change (Json.expect "}" (String " " (String dquote ?s))) with (@None string) in Hfuel.
    change (Json.skip_ws (String " " (String dquote ?s))) with (String dquote s) in Hfuel.
    unfold Json.json_string in Hfuel. rewrite Ascii.eqb_refl in Hfuel.
    rewrite (string_tail_ordinary "error") in Hfuel by reflexivity.
    discriminate.
  - rewrite error_body_text, Htail in Hfuel. discriminate.
Qed.

(** X8. When the standard error of a failing child has ordinary
    characters only (no quotation mark, no backslash, no control
    character), the error body is a JSON text. *)
Theorem ordinary_stderr_gives_json (os : system) (command : string)
    (argv : list string) (rc : Z) (out err : string) :
  Shlex.split command = Return argv ->
  os argv = Exited rc out err ->
  rc <> 0%Z ->
  Json.ordinary err = true ->
  exists body, run_command os command = Return body /\ Json.valid body.
Proof.
  intros Hsplit Hos Hrc Herr. exists (build_error_response err). split.
  - rewrite run_command_cases, Hsplit, Hos.
    apply Z.eqb_neq in Hrc. now rewrite Hrc.
  - exists 3. rewrite error_body_text, string_tail_ordinary by assumption.
    reflexivity.
Qed.

Lemma ordinary_stderr_gives_json_witness :
  exists body,
    run_command (fun _ => Exited 1 EmptyString "position not found: x")
      "bin/gamesman query -- a b x"
    = Return body
    /\ Json.valid body.
Proof.
  apply (ordinary_stderr_gives_json _ _ ["bin/gamesman"; "query"; "--"; "a"; "b"; "x"]
           1%Z EmptyString "position not found: x");
    [reflexivity | reflexivity | lia | reflexivity].
Defined.

Lemma control_not_special (c : ascii) :
  control c = true -> Ascii.eqb c dquote = false /\ Ascii.eqb c backslash = false.
Proof.
  unfold control. intros Hc. split.
  - destruct (Ascii.eqb_spec c dquote) as [-> |]; [discriminate | reflexivity].
  - destruct (Ascii.eqb_spec c backslash) as [-> |]; [discriminate | reflexivity].
Qed.

Lemma string_tail_control (p rest : string) (c : ascii) :
  Json.ordinary p = true -> control c = true ->
  Json.string_tail (p +:+ String c rest) = None.
Proof.
  intros Hp Hc. induction p as [|x p IH].
  - destruct (control_not_special c Hc) as [Hq Hb].
    cbn [String.append Json.string_tail]. rewrite Hq, Hb.
    unfold control in Hc. now rewrite Hc.
  - cbn [Json.ordinary] in Hp. apply andb_true_iff in Hp as [Hx Hp].
    unfold Json.unescaped in Hx.
    apply andb_true_iff in Hx as [Hx Hctl]. apply andb_true_iff in Hx as [Hq Hb].
    rewrite negb_true_iff in Hq, Hb, Hctl.
    cbn [String.append Json.string_tail]. rewrite Hq, Hb, Hctl. now apply IH.
Qed.

Lemma string_tail_trailing_backslash (p : string) :
  Json.ordinary p = true ->
  Json.string_tail ((p +:+ String backslash EmptyString) +:+ String dquote " }") = None.
Proof.
  intros Hp. rewrite append_assoc. cbn [String.append].
  induction p as [|x p IH].
  - reflexivity.
  - cbn [Json.ordinary] in Hp. apply andb_true_iff in Hp as [Hx Hp].
    unfold Json.unescaped in Hx.
    apply andb_true_iff in Hx as [Hx Hctl]. apply andb_true_iff in Hx as [Hq Hb].
    rewrite negb_true_iff in Hq, Hb, Hctl.
    cbn [String.append Json.string_tail]. rewrite Hq, Hb, Hctl. now apply IH.
Qed.

(** X9. The standard error of a failing child is put into the body with
    its line ends and backslashes as they are. When its first character
    that is not ordinary is a control character, such as the line feed
    that ends a message, or when it is ordinary characters and one
    backslash at the end, the error body is not a JSON text. *)
Theorem line_end_in_stderr_breaks_json (os : system) (command : string)
    (argv : list string) (rc : Z) (out err p : string) :
  Shlex.split command = Return argv ->
  os argv = Exited rc out err ->
  rc <> 0%Z ->
  Json.ordinary p = true ->
  (exists c r, control c = true /\ err = p +:+ String c r)
  \/ err = p +:+ String backslash EmptyString ->
  exists body, run_command os command = Return body /\ ~ Json.valid body.
Proof.
  intros Hsplit Hos Hrc Hp Herr. exists (build_error_response err). split.
  - rewrite run_command_cases, Hsplit, Hos.
    apply Z.eqb_neq in Hrc. now rewrite Hrc.
  - apply unterminated_message_invalid.
    destruct Herr as [(c & r & Hc & ->) | ->].
    + rewrite append_assoc. cbn [String.append]. now apply string_tail_control.
    + now apply string_tail_trailing_backslash.
Qed.

Lemma line_end_in_stderr_breaks_json_witness :
  exists body,
    run_command (fun _ => Exited 1 EmptyString ("no such game" +:+ String "010" EmptyString))
      "bin/gamesman getstart a b"
    = Return body
    /\ ~ Json.valid body.
Proof.
  apply (line_end_in_stderr_breaks_json _ _ ["bin/gamesman"; "getstart"; "a"; "b"]
           1%Z EmptyString ("no such game" +:+ String "010" EmptyString) "no such game");
    [reflexivity | reflexivity | lia | reflexivity |].
  left. exists "010"%char, EmptyString. split; reflexivity.
Defined.

End ErrorBodyJson.

(** ** The converter on any file *)

Section ConvertFiles.

Import Builtins Re Literal Convert Text.

(** The substitution of [convert.py], step by step: a property that holds
    for the empty text, is kept when a literal is replaced and the rest
    rewritten, and is kept when a character is copied, holds for every
    text and what the substitution makes of it. *)
Lemma sub_binary_induction (P : string -> string -> Prop) :
  P EmptyString EmptyString ->
  (forall t out v,
      bits t <> EmptyString ->
      binary_literal ("0b" +:+ bits t) = Some v ->
      (0 <= v)%Z ->
      binary_to_hex ("0b" +:+ bits t) = Return (hex v) ->
      P (drop_chars (String.length (bits t)) t) out ->
      P ("0b" +:+ t) (hex v +:+ out)) ->
  (forall c s out,
      match_at binary_items (String c s) = None ->
      P s out -> P (String c s) (String c out)) ->
  forall s, exists out,
    sub_from binary_items binary_to_hex s = Return out /\ P s out.
Proof.
  intros Hend Hlit Hcopy s.
  remember (String.length s) as n eqn:Hn.
  assert (Hlen : String.length s <= n) by lia. clear Hn.
  revert s Hlen. induction n as [|n IH]; intros s Hlen.
  - destruct s; [|cbn in Hlen; lia].
    exists EmptyString. split; [now apply sub_from_end | exact Hend].
  - destruct s as [|c s].
    { exists EmptyString. split; [now apply sub_from_end | exact Hend]. }
    cbn [String.length] in Hlen.
    destruct (match_at binary_items (String c s)) as [m|] eqn:Hm.
    + pose proof Hm as Hshape. apply match_binary in Hshape as (t & Hs & Hne & ->).
      cbn [String.append] in Hs. injection Hs as -> ->.
      destruct (bits_split t) as [Ht Hrest].
      assert (Hbits : forall c, char_in c (bits t) = true -> is_bit c = true)
        by (intros c; apply bits_are_bits).
      destruct (int_binary_literal (bits t) Hne Hbits) as (v & Hint & Hv & Hbin).
      assert (Hhex : binary_to_hex ("0b" +:+ bits t) = Return (hex v)).
      { unfold binary_to_hex. now rewrite Hint. }
      destruct (IH (drop_chars (String.length (bits t)) t)) as (out & Hsub & HP).
      { assert (String.length t
                = String.length (bits t)
                  + String.length (drop_chars (String.length (bits t)) t))
          by (rewrite Ht at 1; apply length_append).
        cbn [String.length] in Hlen. lia. }
      exists (hex v +:+ out). split.
      * rewrite (sub_from_replace _ _ _ _ "0" ("b" +:+ bits t)) by exact Hm.
        change (String "0" ("b" +:+ bits t)) with ("0b" +:+ bits t).
        rewrite Hhex. cbn [mbind result_bind String.append String.length drop_chars].
        rewrite Hsub. reflexivity.
      * now apply (Hlit t out v).
    + destruct (IH s) as (out & Hsub & HP); [lia |].
      exists (String c out). split.
      * rewrite sub_from_copy by exact Hm. now rewrite Hsub.
      * now apply Hcopy.
Qed.

(** [re.sub] with the pattern and function of [convert.py] always
    returns. *)
Lemma sub_binary_returns (content : string) :
  exists updated, Re.sub binary_pattern binary_to_hex content = Return updated.
Proof.
  destruct (sub_binary_pattern content) as (chunks & _ & Hsub & _).
  eauto.
Qed.

(** On the texts of the files: a text that is there is replaced by the
    result of the substitution on it, and no other text changes. *)
Lemma convert_text_of_one_file (path : string) (fs : files) :
  match fs !! path with
  | None => convert_binary_to_hex path fs = Raise (FileNotFoundError path)
  | Some content =>
      exists updated,
        Re.sub binary_pattern binary_to_hex content = Return updated
        /\ convert_binary_to_hex path fs = Return (<[path := updated]> fs)
  end
  /\ (forall fs',
        convert_binary_to_hex path fs = Return fs' ->
        dom fs' = dom fs /\ (forall p, p <> path -> fs' !! p = fs !! p)).
Proof.
  unfold convert_binary_to_hex, read_text, write_text.
  destruct (fs !! path) as [content|] eqn:Hfile; cbn [mbind result_bind].
  - destruct (sub_binary_returns content) as (updated & Hsub).
    rewrite Hsub. cbn [mbind result_bind mret result_ret]. split; [eauto |].
    intros fs' [= <-]. split.
    + rewrite dom_insert_L. apply elem_of_dom_2 in Hfile.
      apply (anti_symm (⊆)); intros p; rewrite elem_of_union, elem_of_singleton;
        [intros [-> |] | intros]; auto.
    + intros p Hp. now rewrite lookup_insert_ne.
  - split; [reflexivity | discriminate].
Qed.

Lemma no_match_without_start (s : string) :
  starts s = false -> match_at binary_items s = None.
Proof.
  intros Hs. destruct (match_at binary_items s) as [m|] eqn:Hm; [|reflexivity].
  assert (starts s = true) by (apply starts_iff; eauto). congruence.
Qed.

Lemma sub_without_literal (s : string) :
  has_literal s = false -> sub_from binary_items binary_to_hex s = Return s.
Proof.
  induction s as [|c s IH]; intros Hs.
  - now apply sub_from_end.
  - cbn [has_literal] in Hs. apply orb_false_iff in Hs as [Hstart Hs].
    rewrite sub_from_copy by now apply no_match_without_start.
    now rewrite IH.
Qed.

(** A text in which no binary literal starts is the result of its own
    substitution. *)
Lemma script_keeps_text_without_literal (fs : files) (content : string) :
  fs !! file_path = Some content ->
  has_literal content = false ->
  Re.sub binary_pattern binary_to_hex content = Return content
  /\ script fs = Return fs.
Proof.
  intros Hfile Hfree.
  assert (Hsub : Re.sub binary_pattern binary_to_hex content = Return content).
  { unfold Re.sub. rewrite compile_binary_pattern. cbn [mbind result_bind].
    now apply sub_without_literal. }
  split; [exact Hsub |].
  unfold script, convert_binary_to_hex, read_text, write_text.
  rewrite Hfile. cbn [mbind result_bind]. rewrite Hsub.
  cbn [mbind result_bind mret result_ret]. now rewrite insert_id.
Qed.

End ConvertFiles.

(** ** Sizes and values of replacements *)

Section Replacements.

Import Builtins Re Literal Convert Text.

Lemma index_of_range (c : ascii) (alphabet : string) (i d : Z) :
  index_of c alphabet i = Some d ->
  (i <= d < i + Z.of_nat (String.length alphabet))%Z.
Proof.
  revert i. induction alphabet as [|a alphabet IH]; intros i; cbn [index_of];
    [discriminate |].
  destruct (Ascii.eqb c a).
  - intros [= <-]. cbn [String.length]. lia.
  - intros H. apply IH in H. cbn [String.length]. lia.
Qed.

Lemma digit_values_range (alphabet s : string) (ds : list Z) :
  digit_values alphabet s = Some ds ->
  List.length ds = String.length s
  /\ Forall (fun d => (0 <= d < Z.of_nat (String.length alphabet))%Z) ds.
Proof.
  revert ds. induction s as [|x s IH]; intros ds Hds; cbn [digit_values] in Hds.
  - injection Hds as <-. split; [reflexivity | constructor].
  - destruct (index_of x alphabet 0) as [d|] eqn:Hx; [|discriminate]. cbn in Hds.
    destruct (digit_values alphabet s) as [ds'|] eqn:Hs; [|discriminate]. cbn in Hds.
    injection Hds as <-. destruct (IH ds' eq_refl) as [Hlen Hall].
    apply index_of_range in Hx. split.
    + cbn [List.length String.length]. now rewrite Hlen.
    + constructor; [lia | assumption].
Qed.

Lemma positional_bound (base : Z) (ds : list Z) :
  (1 <= base)%Z ->
  Forall (fun d => (0 <= d < base)%Z) ds ->
  (0 <= positional base ds < base ^ Z.of_nat (List.length ds))%Z.
Proof.
  intros Hbase Hall. induction Hall as [|d ds Hd Hall IH]; cbn [positional List.length].
  - cbn. lia.
  - rewrite Nat2Z.inj_succ, Z.pow_succ_r by lia.
    assert (0 < base ^ Z.of_nat (List.length ds))%Z by (apply Z.pow_pos_nonneg; lia).
    nia.
Qed.

(** What a binary literal is, read off its value. *)
Lemma binary_literal_shape (m : string) (v : Z) :
  binary_literal m = Some v ->
  exists bs, m = "0b" +:+ bs /\ bs <> EmptyString
             /\ (forall c, char_in c bs = true -> is_bit c = true)
             /\ (0 <= v < 2 ^ Z.of_nat (String.length bs))%Z.
Proof.
  unfold binary_literal, denotation. intros H.
  destruct m as [|c0 [|c1 bs]]; try discriminate.
  - destruct c0 as [[] [] [] [] [] [] [] []]; discriminate.
  - destruct c0 as [[] [] [] [] [] [] [] []]; try discriminate.
    destruct (Ascii.eqb_spec c1 "b") as [-> |]; [|discriminate].
    destruct (is_empty bs) eqn:Hne; [discriminate |]. cbn [negb andb] in H.
    destruct (digit_values "01" bs) as [ds|] eqn:Hds; [|discriminate].
    cbn in H. injection H as <-. exists bs.
    split; [reflexivity |]. split; [intros ->; discriminate |]. split.
    + intros c Hc. unfold is_bit. eapply digit_values_in; [exact Hds | exact Hc].
    + destruct (digit_values_range _ _ _ Hds) as [Hlen Hall].
      rewrite <- Hlen. now apply (positional_bound 2).
Qed.

Lemma binary_to_hex_of_value (m : string) (v : Z) :
  binary_literal m = Some v -> binary_to_hex m = Return (hex v).
Proof.
  intros Hm. destruct (binary_literal_shape m v Hm) as (bs & -> & Hne & Hbits & _).
  destruct (int_binary_literal bs Hne Hbits) as (v' & Hint & _ & Hlit).
  assert (v' = v) by congruence. subst v'.
  unfold binary_to_hex. now rewrite Hint.
Qed.

(** X12. The replacement of a binary literal is [hex] of the number it
    denotes and nothing else: two literals for the same number get the
    same replacement, so zeros at the front of a literal are not kept. *)
Theorem replacement_depends_on_value (m1 m2 : string) (v : Z) :
  binary_literal m1 = Some v ->
  binary_literal m2 = Some v ->
  binary_to_hex m1 = Return (hex v)
  /\ binary_to_hex m2 = binary_to_hex m1
  /\ binary_literal ("0b0" +:+ drop_chars 2 m1) = Some v
  /\ binary_to_hex ("0b0" +:+ drop_chars 2 m1) = binary_to_hex m1.
Proof.
  intros H1 H2.
  assert (Hzero : binary_literal ("0b0" +:+ drop_chars 2 m1) = Some v).
  { destruct (binary_literal_shape m1 v H1) as (bs & -> & Hne & _).
    cbn [String.append drop_chars]. revert H1.
    unfold binary_literal, denotation. cbn [String.append].
    change (Ascii.eqb "b" "b") with true.
    destruct bs as [|b bs]; [now contradiction Hne |]. cbn [is_empty negb andb].
    change (digit_values "01" (String "0" (String b bs)))
      with (ds ← digit_values "01" (String b bs); Some (0%Z :: ds)).
    destruct (digit_values "01" (String b bs)) as [ds|]; [|discriminate].
    cbn. intros [= <-]. f_equal; lia. }
  rewrite !(binary_to_hex_of_value _ v) by assumption. now repeat split.
Qed.

Lemma replacement_depends_on_value_witness :
  binary_to_hex "0b00000101" = binary_to_hex "0b101".
Proof.
  apply (replacement_depends_on_value "0b101" "0b00000101" 5); reflexivity.
Defined.





End Replacements.

(** ** The substitution works piece by piece *)

Section Locality.

Import Builtins Re Literal Convert Text.

Lemma drop_chars_shorter (n : nat) (s : string) :
  String.length (drop_chars n s) <= String.length s.
Proof.
  revert s. induction n as [|n IH]; intros [|c s]; cbn [drop_chars String.length];
    try lia.
  specialize (IH s). lia.
Qed.

Lemma drop_chars_append (n : nat) (s r : string) :
  n <= String.length s -> drop_chars n (s +:+ r) = drop_chars n s +:+ r.
Proof.
  revert s. induction n as [|n IH]; intros [|c s] Hn; cbn [String.length] in Hn;
    try lia; try reflexivity.
  cbn [String.append drop_chars]. apply IH. lia.
Qed.

Lemma separator_parts (c : ascii) :
  separator c = true ->
  is_bit c = false /\ c <> "b"%char /\ c <> "0"%char.
Proof.
  unfold separator, is_bit. cbn [char_in].
  destruct (Ascii.eqb_spec c "0") as [E0 | N0]; [discriminate |].
  destruct (Ascii.eqb_spec c "1") as [E1 | N1]; [discriminate |].
  destruct (Ascii.eqb_spec c "b") as [Eb | Nb]; [discriminate |].
  now repeat split.
Qed.

Lemma bits_before_separator (t b : string) (c : ascii) :
  is_bit c = false -> bits (t +:+ String c b) = bits t.
Proof.
  intros Hc. induction t as [|x t IH]; cbn [String.append bits].
  - now rewrite Hc.
  - now rewrite IH.
Qed.

Lemma bits_length (t : string) : String.length (bits t) <= String.length t.
Proof.
  destruct (bits_split t) as [Ht _]. apply (f_equal String.length) in Ht.
  rewrite length_append in Ht. lia.
Qed.

(** What follows a separator does not change what the pattern matches
    before it. *)
Lemma match_before_separator (a b : string) (c : ascii) :
  a <> EmptyString -> separator c = true ->
  match_at binary_items (a +:+ String c b) = match_at binary_items a.
Proof.
  intros Ha Hc. destruct (separator_parts c Hc) as (Hbit & Hb & _).
  assert (Hiff : forall m, match_at binary_items (a +:+ String c b) = Some m
                           <-> match_at binary_items a = Some m).
  { intros m. rewrite !match_binary. split.
    - intros (t & Hs & Hne & ->).
      destruct a as [|x [|y a]]; [now contradiction Ha | |].
      + cbn [String.append] in Hs. injection Hs as _ Hs _. congruence.
      + cbn [String.append] in Hs. injection Hs as -> -> <-.
        rewrite bits_before_separator in * by assumption.
        exists a. now repeat split.
    - intros (t & -> & Hne & ->). exists (t +:+ String c b).
      rewrite bits_before_separator by assumption. now repeat split. }
  destruct (match_at binary_items a) as [m|].
  - now apply Hiff.
  - destruct (match_at binary_items (a +:+ String c b)) as [m|]; [|reflexivity].
    symmetry. now apply (Hiff m).
Qed.

Lemma no_match_at_separator (b : string) (c : ascii) :
  separator c = true -> match_at binary_items (String c b) = None.
Proof.
  intros Hc. destruct (separator_parts c Hc) as (_ & _ & H0).
  destruct (match_at binary_items (String c b)) as [m|] eqn:Hm; [|reflexivity].
  apply match_binary in Hm as (t & Hs & _). cbn [String.append] in Hs. congruence.
Qed.

Lemma sub_around_separator (b : string) (c : ascii) (n : nat) :
  separator c = true ->
  forall a, String.length a <= n ->
  sub_from binary_items binary_to_hex (a +:+ String c b)
  = oa ← sub_from binary_items binary_to_hex a;
    ob ← sub_from binary_items binary_to_hex b;
    mret (oa +:+ String c ob).
Proof.
  intros Hc. induction n as [|n IH]; intros a Hlen.
  - destruct a; [|cbn in Hlen; lia].
    rewrite sub_from_end by reflexivity. cbn [String.append mbind result_bind].
    rewrite sub_from_copy by now apply no_match_at_separator.
    now destruct (sub_from binary_items binary_to_hex b).
  - destruct a as [|x a].
    { rewrite sub_from_end by reflexivity. cbn [String.append mbind result_bind].
      rewrite sub_from_copy by now apply no_match_at_separator.
      now destruct (sub_from binary_items binary_to_hex b). }
    cbn [String.length] in Hlen.
    pose proof (match_before_separator (String x a) b c) as Hsame.
    cbn [String.append] in Hsame |- *.
    destruct (match_at binary_items (String x a)) as [m|] eqn:Hm.
    + pose proof Hm as Hshape. apply match_binary in Hshape as (t & Hs & Hne & ->).
      cbn [String.append] in Hs. injection Hs as -> ->.
      rewrite (sub_from_replace _ _ _ _ "0" ("b" +:+ bits t)) by (now apply Hsame).
      rewrite (sub_from_replace _ _ _ _ "0" ("b" +:+ bits t)) by exact Hm.
      cbn [String.append String.length drop_chars].
      rewrite drop_chars_append by apply bits_length.
      rewrite IH.
      2:{ pose proof (drop_chars_shorter (String.length (bits t)) t).
          cbn [String.length] in Hlen. lia. }
      destruct (binary_to_hex (String "0" (String "b" (bits t)))) as [r|e];
        [|reflexivity].
      cbn [mbind result_bind].
      destruct (sub_from binary_items binary_to_hex
                  (drop_chars (String.length (bits t)) t)) as [oa|e]; [|reflexivity].
      cbn [mbind result_bind].
      destruct (sub_from binary_items binary_to_hex b) as [ob|e]; [|reflexivity].
      cbn. now rewrite append_assoc.
    + rewrite sub_from_copy by (now apply Hsame).
      rewrite sub_from_copy by exact Hm. rewrite IH by lia.
      destruct (sub_from binary_items binary_to_hex a) as [oa|e]; [|reflexivity].
      cbn [mbind result_bind].
      now destruct (sub_from binary_items binary_to_hex b).
Qed.

(** X14. The substitution works piece by piece: a character other than
    [0], [1] and [b], such as a blank, a line end or a semicolon, cuts the
    text in two parts that are rewritten one without the other. *)
Theorem sub_is_local (a b : string) (c : ascii) :
  separator c = true ->
  exists oa ob,
    Re.sub binary_pattern binary_to_hex a = Return oa
    /\ Re.sub binary_pattern binary_to_hex b = Return ob
    /\ Re.sub binary_pattern binary_to_hex (a +:+ String c b)
       = Return (oa +:+ String c ob).
Proof.
  intros Hc.
  destruct (sub_binary_returns a) as (oa & Ha), (sub_binary_returns b) as (ob & Hb).
  exists oa, ob. repeat split; try assumption.
  unfold Re.sub in *. rewrite compile_binary_pattern in *. cbn [mbind result_bind] in *.
  rewrite (sub_around_separator b c (String.length a)) by (assumption || lia).
  now rewrite Ha, Hb.
Qed.

Lemma sub_is_local_witness :
  exists oa ob,
    Re.sub binary_pattern binary_to_hex "a = 0b11" = Return oa
    /\ Re.sub binary_pattern binary_to_hex " b = 0b100;" = Return ob
    /\ Re.sub binary_pattern binary_to_hex ("a = 0b11" +:+ String ";" " b = 0b100;")
       = Return (oa +:+ String ";" ob).
Proof.
  apply (sub_is_local "a = 0b11" " b = 0b100;" ";"). reflexivity.
Defined.

End Locality.

(** ** A literal inside a longer token *)

Section InsideToken.

Import Builtins Re Literal Convert Text.

Lemma bits_of_bits (bs : string) :
  (forall c, char_in c bs = true -> is_bit c = true) -> bits bs = bs.
Proof.
  induction bs as [|x bs IH]; intros Hbits; [reflexivity |].
  cbn [bits]. rewrite (Hbits x) by (cbn [char_in]; now rewrite Ascii.eqb_refl).
  rewrite IH; [reflexivity |].
  intros c Hc. apply Hbits. cbn [char_in]. rewrite Hc. now destruct (Ascii.eqb c x).
Qed.

Lemma drop_chars_all (s : string) : drop_chars (String.length s) s = EmptyString.
Proof. induction s as [|x s IH]; [reflexivity | exact IH]. Qed.

(** A text that is one binary literal becomes [hex] of its value. *)
Lemma sub_one_literal (bs : string) (v : Z) :
  binary_literal ("0b" +:+ bs) = Some v ->
  sub_from binary_items binary_to_hex ("0b" +:+ bs) = Return (hex v).
Proof.
  intros Hv. destruct (binary_literal_shape _ _ Hv) as (bs' & Hbs & Hne & Hbits & _).
  cbn [String.append] in Hbs. injection Hbs as <-.
  assert (Hm : match_at binary_items ("0b" +:+ bs) = Some ("0b" +:+ bs)).
  { apply match_binary. exists bs. rewrite bits_of_bits by assumption. now repeat split. }
  cbn [String.append] in Hm |- *.
  rewrite (sub_from_replace _ _ _ _ "0" (String "b" bs)) by exact Hm.
  change (String "0" (String "b" bs)) with ("0b" +:+ bs).
  rewrite (binary_to_hex_of_value _ v Hv).
  cbn [mbind result_bind String.length drop_chars]. rewrite drop_chars_all.
  rewrite sub_from_end by reflexivity. cbn. now rewrite append_empty_r.
Qed.

Lemma index_of_total (c : ascii) (alphabet : string) (i : Z) :
  char_in c alphabet = true -> exists d, index_of c alphabet i = Some d.
Proof.
  revert i. induction alphabet as [|a alphabet IH]; intros i; cbn [char_in index_of];
    [discriminate |].
  destruct (Ascii.eqb c a); [eauto | apply IH].
Qed.

Lemma digit_values_total (alphabet s : string) :
  (forall c, char_in c s = true -> char_in c alphabet = true) ->
  exists ds, digit_values alphabet s = Some ds.
Proof.
  induction s as [|x s IH]; intros Hs; [now exists [] |].
  destruct (index_of_total x alphabet 0) as (d & Hd).
  { apply Hs. cbn [char_in]. now rewrite Ascii.eqb_refl. }
  destruct IH as (ds & Hds).
  { intros c Hc. apply Hs. cbn [char_in]. rewrite Hc. now destruct (Ascii.eqb c x). }
  exists (d :: ds). cbn [digit_values]. now rewrite Hd, Hds.
Qed.

(** X15. The pattern has no word boundary: a binary literal is replaced
    also where it is the end of a longer token. The hexadecimal literal
    whose digits are [0], [b] and then binary digits is rewritten, and what
    is written in its place is no hexadecimal literal. *)
Theorem literal_inside_hex_is_rewritten (bs : string) (v : Z) :
  binary_literal ("0b" +:+ bs) = Some v ->
  Re.sub binary_pattern binary_to_hex ("0x0b" +:+ bs) = Return ("0x" +:+ hex v)
  /\ (exists w, hex_literal ("0x0b" +:+ bs) = Some w)
  /\ hex_literal ("0x" +:+ hex v) = None.
Proof.
  intros Hv. destruct (binary_literal_shape _ _ Hv) as (bs' & Hbs & Hne & Hbits & Hrange).
  cbn [String.append] in Hbs. injection Hbs as <-. split; [|split].
  - unfold Re.sub. rewrite compile_binary_pattern. cbn [mbind result_bind].
    change ("0x0b" +:+ bs) with ("0" +:+ String "x" ("0b" +:+ bs)).
    rewrite (sub_around_separator _ "x" 1) by (reflexivity || (cbn; lia)).
    rewrite (sub_one_literal bs v Hv).
    rewrite sub_without_literal by reflexivity. reflexivity.
  - destruct (digit_values_total hex_alphabet ("0b" +:+ bs)) as (ds & Hds).
    { intros c. cbn [String.append char_in].
      destruct (Ascii.eqb_spec c "0") as [-> |]; [reflexivity |].
      destruct (Ascii.eqb_spec c "b") as [-> |]; [reflexivity |].
      intros Hc. apply Hbits, is_bit_cases in Hc as [-> | ->]; reflexivity. }
    unfold hex_literal, denotation. cbn [String.append] in Hds |- *.
    change (Ascii.eqb "x" "x") with true. cbn [is_empty negb andb].
    rewrite Hds. cbn. eauto.
  - destruct (hex_literal_hex v) as [-> _]; [lia |].
    unfold hex_literal, denotation. cbn [String.append].
    change (Ascii.eqb "x" "x") with true. cbn [is_empty negb andb digit_values].
    change (index_of "x" hex_alphabet 0) with (@None Z).
    change (index_of "0" hex_alphabet 0) with (Some 0%Z). reflexivity.
Qed.

Lemma literal_inside_hex_is_rewritten_witness :
  Re.sub binary_pattern binary_to_hex "0x0b1" = Return "0x0x1".
Proof.
  apply (literal_inside_hex_is_rewritten "1" 1). reflexivity.
Defined.

End InsideToken.

(** ** The program that is run *)

Section FixedProgram.

Import Subprocess Server Shlex.

Lemma split_getstart_head (game_name variant_id : string) :
  split (getstart_command game_name variant_id)
  = toks ← tokens (game_name +:+ " " +:+ variant_id) StWhite EmptyString false StWhite;
    mret ("bin/gamesman" :: "getstart" :: toks).
Proof.
  unfold split, getstart_command.
  change ("bin/gamesman getstart " +:+ ?x)
    with ("bin/gamesman" +:+ String " " ("getstart" +:+ String " " x)).
  rewrite !tokens_word_blank by reflexivity.
  now destruct (tokens _ _ _ _ _).
Qed.

(** X16. A request cannot choose what is run. Whatever the segments
    are, with blanks, quotation marks or backslashes in them, a command
    that can be split starts with [bin/gamesman] and the subcommand of the
    view, and for [query] the separator; the segments only add arguments
    after these. *)
Theorem segments_only_add_arguments (game_name variant_id position : string)
    (argv : list string) :
  (split (getstart_command game_name variant_id) = Return argv ->
   exists rest, argv = "bin/gamesman" :: "getstart" :: rest)
  /\ (split (query_command game_name variant_id position) = Return argv ->
      exists rest, argv = "bin/gamesman" :: "query" :: "--" :: rest).
Proof.
  split; intros Hsplit.
  - rewrite split_getstart_head in Hsplit.
    destruct (tokens _ _ _ _ _) as [toks|e]; cbn in Hsplit; [|discriminate].
    injection Hsplit as <-. eauto.
  - rewrite split_query_prefix in Hsplit.
    destruct (tokens _ _ _ _ _) as [toks|e]; cbn in Hsplit; [|discriminate].
    injection Hsplit as <-. eauto.
Qed.

Lemma segments_only_add_arguments_witness :
  exists rest,
    ["bin/gamesman"; "getstart"; "x; /bin/sh"; "-c"; "id"]
    = "bin/gamesman" :: "getstart" :: rest.
Proof.
  apply (proj1 (segments_only_add_arguments "'x; /bin/sh' -c" "id" "p"
                  ["bin/gamesman"; "getstart"; "x; /bin/sh"; "-c"; "id"])).
  reflexivity.
Defined.

End FixedProgram.

(** ** Text mode *)

Section TextModeFacts.

Import TextMode.

Lemma replace_crlf_without_cr (s : string) :
  char_in CR s = false -> replace_crlf s = s.
Proof.
  induction s as [|c s IH]; intros Hs; [reflexivity |].
  cbn [char_in] in Hs. rewrite Ascii.eqb_sym in Hs.
  destruct (Ascii.eqb c CR) eqn:Hc; [discriminate |].
  cbn [replace_crlf]. rewrite Hc. cbn [andb].
  destruct s as [|d s]; [reflexivity |]. now rewrite IH.
Qed.

Lemma replace_cr_without_cr (s : string) :
  char_in CR s = false -> replace_cr s = s.
Proof.
  induction s as [|c s IH]; intros Hs; [reflexivity |].
  cbn [char_in] in Hs. rewrite Ascii.eqb_sym in Hs.
  destruct (Ascii.eqb c CR) eqn:Hc; [discriminate |].
  cbn [replace_cr]. now rewrite Hc, IH.
Qed.

(** A text without carriage returns is read as it is. *)
Lemma universal_newlines_without_cr (s : string) :
  char_in CR s = false -> universal_newlines s = s.
Proof.
  intros Hs. unfold universal_newlines.
  now rewrite replace_crlf_without_cr, replace_cr_without_cr.
Qed.

(** With the line feed as line separator a text is written as it is. *)
Lemma output_newlines_lf (s : string) :
  output_newlines (String LF EmptyString) s = s.
Proof.
  induction s as [|c s IH]; [reflexivity |].
  cbn [output_newlines]. rewrite IH.
  destruct (Ascii.eqb_spec c LF) as [-> |]; reflexivity.
Qed.


Lemma is_ascii_append (a b : string) :
  is_ascii (a +:+ b) = is_ascii a && is_ascii b.
Proof.
  induction a as [|c a IH]; [reflexivity |].
  cbn [String.append is_ascii]. now rewrite IH, andb_assoc.
Qed.

Lemma posix_latin_1_compatible : ascii_compatible posix_latin_1.
Proof. intros s _. split; reflexivity. Qed.

Lemma posix_ascii_compatible : ascii_compatible posix_ascii.
Proof. intros s Hs. cbn. now rewrite Hs. Qed.

End TextModeFacts.

(** ** The rules of the application *)

Section StaticRule.

Import Subprocess Server Flask Request App.

Lemma after_prefix_some (prefix s r : string) :
  after_prefix prefix s = Some r -> s = prefix +:+ r.
Proof.
  revert s. induction prefix as [|a prefix IH]; intros s H.
  - cbn in H. now injection H as <-.
  - destruct s as [|c s]; [discriminate |]. cbn [after_prefix] in H.
    destruct (Ascii.eqb_spec a c) as [-> |]; [|discriminate].
    cbn [String.append]. f_equal. now apply IH.
Qed.

(** What stands before the first slash of a text is determined. *)
Lemma first_segment_unique (a b r r' : string) :
  char_in "/" a = false -> char_in "/" b = false ->
  a +:+ String "/" r = b +:+ String "/" r' -> a = b.
Proof.
  revert b. induction a as [|x a IH]; intros [|y b] Ha Hb H.
  - reflexivity.
  - cbn [String.append] in H. injection H as <- _. discriminate.
  - cbn [String.append] in H. injection H as -> _. discriminate.
  - cbn [String.append] in H. injection H as -> H.
    cbn [char_in] in Ha, Hb. destruct (Ascii.eqb "/" y); [discriminate |].
    f_equal. now apply (IH b).
Qed.

(** A path whose first segment is not [static] is left to the rules of
    [server.py]. *)
Lemma static_filename_segment (game_name rest : string) :
  segment game_name = true -> game_name <> "static" ->
  static_filename ("/" +:+ game_name +:+ String "/" rest) = None.
Proof.
  intros Hg Hne. destruct (segment_parts _ Hg) as (_ & _ & Sg).
  unfold static_filename.
  destruct (after_prefix "/static/" _) as [r|] eqn:Hr; [|reflexivity].
  apply after_prefix_some in Hr. cbn [String.append] in Hr. injection Hr as Hr.
  change (String "s" (String "t" (String "a" (String "t" (String "i" (String "c"
            (String "/" r)))))))
    with ("static" +:+ String "/" r) in Hr.
  apply first_segment_unique in Hr; [contradiction | assumption | reflexivity].
Qed.


Lemma wsgi_app_query (static_view : string -> response) (os : system)
    (game_name variant_id position : string) :
  segment game_name = true -> segment variant_id = true -> segment position = true ->
  game_name <> "static" ->
  wsgi_app static_view os (query_path game_name variant_id position)
  = finalize (query os game_name variant_id position).
Proof.
  intros Hg Hv Hp Hne. unfold wsgi_app.
  replace (static_filename (query_path game_name variant_id position)) with (@None string).
  - unfold full_dispatch_request. now rewrite url_match_query_path.
  - symmetry. now apply static_filename_segment.
Qed.

End StaticRule.

(** ** The body of a response and the bytes of the child *)

Section ResponseBytes.

Import Subprocess Server Flask Request TextMode Pipes App.

(** What [run_command] returns is the answer to what the system did. *)
Lemma run_command_answer (os : system) (command : string) (argv : list string) :
  Shlex.split command = Return argv ->
  run_command os command = Answer.answer (os argv).
Proof. intros Hsplit. now rewrite run_command_cases, Hsplit. Qed.




End ResponseBytes.

(** ** shlex.split and the words of the shell *)

Section ShellWordSplitting.

Import Subprocess Server Shlex ShellWords.

Lemma blank_whitespace (c : ascii) : char_in c whitespace = blank c.
Proof.
  unfold blank, whitespace. cbn [char_in].
  now destruct (Ascii.eqb c " "), (Ascii.eqb c "009"), (Ascii.eqb c "013"),
    (Ascii.eqb c "010").
Qed.

Lemma special_quotes_escape (c : ascii) :
  special c = char_in c quotes || char_in c escape.
Proof.
  unfold special, quotes, escape, squote, dquote, backslash. cbn [char_in].
  now destruct (Ascii.eqb c "'"), (Ascii.eqb c "034"), (Ascii.eqb c "\").
Qed.

(** Outside the escape state the lexer does not look at [escapedstate]. *)
Lemma tokens_escapedstate (s : string) :
  forall state token quoted esc1 esc2,
    (forall e, state <> StEscape e) ->
    tokens s state token quoted esc1 = tokens s state token quoted esc2.
Proof.
  induction s as [|c s IH]; intros state token quoted esc1 esc2 Hstate.
  - destruct state; reflexivity.
  - destruct state; cbn [tokens].
    + reflexivity.
    + destruct (char_in c whitespace).
      { destruct (negb (is_empty token) || quoted); [reflexivity |].
        apply IH. discriminate. }
      destruct (char_in c escape); [reflexivity |].
      destruct (wordchars c); [apply IH; discriminate |].
      destruct (char_in c quotes); apply IH; discriminate.
    + destruct (char_in c whitespace).
      { destruct (negb (is_empty token) || quoted); [reflexivity |].
        apply IH. discriminate. }
      destruct (char_in c quotes); [apply IH; discriminate |].
      destruct (char_in c escape); [reflexivity |].
      apply IH. discriminate.
    + destruct (Ascii.eqb c q); [apply IH; discriminate |].
      destruct (char_in c escape && char_in q escapedquotes); [reflexivity |].
      apply IH. discriminate.
    + now contradiction (Hstate e).
Qed.

(** Before a token has begun, the states [' '] and ['a'] read alike. *)
Lemma tokens_white_as_word (s : string) (esc : lex_state) :
  tokens s StWhite EmptyString false esc = tokens s StWord EmptyString false esc.
Proof.
  destruct s as [|c s]; [reflexivity |]. cbn [tokens is_empty negb orb].
  destruct (char_in c whitespace); [reflexivity |].
  destruct (char_in c escape) eqn:He.
  - unfold escape in He. cbn [char_in] in He.
    destruct (Ascii.eqb_spec c backslash) as [-> |]; [reflexivity | discriminate].
  - destruct (char_in c quotes) eqn:Hq.
    + unfold quotes in Hq. cbn [char_in] in Hq.
      destruct (Ascii.eqb_spec c squote) as [-> |]; [reflexivity |].
      destruct (Ascii.eqb_spec c dquote) as [-> |]; [reflexivity | discriminate].
    + now destruct (wordchars c).
Qed.

(** Between double quotes. *)
Lemma tokens_inside (q qvalue : string) :
  inside q qvalue ->
  forall rest token quoted esc,
    tokens (q +:+ String dquote rest) (StQuote dquote) token quoted esc
    = tokens rest StWord (token +:+ qvalue) true esc.
Proof.
  induction 1 as [|c src value Hq Hb _ IH|c src value Hc _ IH|c src value Hq Hb _ IH];
    intros rest token quoted esc.
  - cbn [String.append tokens]. rewrite Ascii.eqb_refl. now rewrite append_empty_r.
  - cbn [String.append tokens]. change (Ascii.eqb c dquote) with (Ascii.eqb c "034").
    rewrite Hq. unfold escape. cbn [char_in].
    change (Ascii.eqb c backslash) with (Ascii.eqb c "\"). rewrite Hb. cbn [andb].
    rewrite IH. now rewrite snoc_append.
  - cbn [String.append tokens keeps_escape].
    change (Ascii.eqb "\" dquote) with false.
    change (char_in "\" escape && char_in dquote escapedquotes) with true. cbv iota.
    replace (negb (Ascii.eqb c "\") && negb (Ascii.eqb c dquote)) with false.
    + rewrite IH, snoc_append. apply tokens_escapedstate. discriminate.
    + change (Ascii.eqb c dquote) with (Ascii.eqb c "034").
      now destruct (Ascii.eqb c "\"), (Ascii.eqb c "034").
  - cbn [String.append tokens keeps_escape].
    change (Ascii.eqb "\" dquote) with false.
    change (char_in "\" escape && char_in dquote escapedquotes) with true. cbv iota.
    change (Ascii.eqb c dquote) with (Ascii.eqb c "034"). rewrite Hq, Hb. cbn [negb andb].
    rewrite IH, !snoc_append. apply tokens_escapedstate. discriminate.
Qed.

(** The pieces of a word are read into the token. *)
Lemma tokens_pieces (src value : string) (q : bool) :
  pieces src value q ->
  forall rest token quoted esc,
    tokens (src +:+ rest) StWord token quoted esc
    = tokens rest StWord (token +:+ value) (quoted || q) esc.
Proof.
  induction 1 as [|c src value q Hb Hs _ IH|c src value q _ IH
                  |t src value q Ht _ IH|t tvalue src value q Ht _ IH];
    intros rest token quoted esc.
  - cbn [String.append]. now rewrite append_empty_r, orb_false_r.
  - rewrite special_quotes_escape in Hs. apply orb_false_iff in Hs as [Hq He].
    cbn [String.append tokens]. rewrite blank_whitespace, Hb, Hq, He.
    rewrite IH. now rewrite snoc_append.
  - cbn [String.append tokens keeps_escape].
    change (char_in "\" whitespace) with false.
    change (char_in "\" quotes) with false.
    change (char_in "\" escape) with true. cbv iota.
    rewrite IH, snoc_append. apply tokens_escapedstate. discriminate.
  - cbn [String.append tokens].
    change (char_in "'" whitespace) with false.
    change (char_in "'" quotes) with true. cbv iota.
    rewrite append_assoc. cbn [String.append].
    rewrite (tokens_quoted_chars t) by exact Ht.
    rewrite IH. now rewrite append_assoc, orb_true_r.
  - cbn [String.append tokens].
    change (char_in "034" whitespace) with false.
    change (char_in "034" quotes) with true. cbv iota.
    rewrite append_assoc. cbn [String.append].
    rewrite (tokens_inside t tvalue Ht).
    rewrite IH. now rewrite append_assoc, orb_true_r.
Qed.

(** A word is a token also when it stands for the empty text: then a
    part of it is quoted. *)
Lemma pieces_token (src value : string) (q : bool) :
  pieces src value q -> src <> EmptyString -> q || negb (is_empty value) = true.
Proof.
  destruct 1; intros Hne; try reflexivity.
  - now contradiction Hne.
  - apply orb_true_r.
  - apply orb_true_r.
Qed.

(** [shlex.split] returns the words of a command. *)
Lemma split_words (command : string) (argv : list string) :
  words command argv -> split command = Return argv.
Proof.
  unfold split.
  induction 1 as [|c command argv Hc _ IH|src value (q & Hp & Hne)
                  |src value c command argv (q & Hp & Hne) Hc _ IH].
  - reflexivity.
  - cbn [tokens]. rewrite blank_whitespace, Hc. exact IH.
  - rewrite tokens_white_as_word. rewrite <- (append_empty_r src).
    rewrite (tokens_pieces _ _ _ Hp). cbn [tokens String.append orb].
    unfold emit. now rewrite (pieces_token _ _ _ Hp Hne).
  - rewrite tokens_white_as_word, (tokens_pieces _ _ _ Hp).
    cbn [tokens String.append orb]. rewrite blank_whitespace, Hc.
    pose proof (pieces_token _ _ _ Hp Hne) as Htok.
    rewrite orb_comm, Htok. unfold emit. rewrite Htok, IH. reflexivity.
Qed.

End ShellWordSplitting.

(** ** Every command that is split is a sequence of words *)

Section ShellWordReading.

Import Subprocess Server Shlex ShellWords.

(** After an apostrophe the lexer returns only if the apostrophe is
    closed. *)
Lemma tokens_single_quoted (s : string) :
  forall token quoted esc l,
    tokens s (StQuote squote) token quoted esc = Return l ->
    exists body s',
      s = body +:+ String squote s'
      /\ char_in squote body = false
      /\ tokens s' StWord (token +:+ body) true esc = Return l.
Proof.
  induction s as [|c s IH]; intros token quoted esc l H; [discriminate |].
  cbn [tokens] in H. destruct (Ascii.eqb_spec c squote) as [-> | Hc].
  - exists EmptyString, s. rewrite append_empty_r. now repeat split.
  - change (char_in squote escapedquotes) with false in H. rewrite andb_false_r in H.
    apply IH in H as (body & s' & -> & Hbody & H).
    exists (String c body), s'. rewrite snoc_append in H.
    repeat split; [|exact H]. cbn [char_in].
    destruct (Ascii.eqb_spec squote c) as [<- |]; [now contradiction Hc | exact Hbody].
Qed.

(** After a double quote the lexer returns only if the quote is closed,
    and what stands between is read by the rules for double quotes. *)
Lemma tokens_double_quoted (n : nat) :
  forall s, String.length s <= n ->
  forall token quoted esc l,
    tokens s (StQuote dquote) token quoted esc = Return l ->
    exists body bvalue s',
      s = body +:+ String dquote s'
      /\ inside body bvalue
      /\ tokens s' StWord (token +:+ bvalue) true esc = Return l.
Proof.
  induction n as [|n IH]; intros s Hlen token quoted esc l H.
  { destruct s; [discriminate | cbn in Hlen; lia]. }
  destruct s as [|c s]; [discriminate |].
  cbn [String.length] in Hlen. cbn [tokens] in H.
  destruct (Ascii.eqb_spec c dquote) as [-> | Hq].
  { exists EmptyString, EmptyString, s. rewrite append_empty_r.
    repeat split; [constructor | exact H]. }
  unfold escape in H. cbn [char_in] in H.
  change (char_in dquote escapedquotes) with true in H.
  destruct (Ascii.eqb_spec c backslash) as [-> | Hb]; cbn [andb] in H.
  - destruct s as [|d s]; [discriminate |].
    cbn [String.length] in Hlen. cbn [tokens keeps_escape] in H.
    destruct (Ascii.eqb_spec d backslash) as [-> | Hdb]; cbn [negb andb] in H.
    { apply IH in H as (body & bvalue & s' & -> & Hin & H); [|lia].
      exists (String "\" (String "\" body)), (String "\" bvalue), s'.
      rewrite snoc_append in H. repeat split.
      - now apply inside_escaped.
      - rewrite <- H. apply tokens_escapedstate. discriminate. }
    destruct (Ascii.eqb_spec d dquote) as [-> | Hdq]; cbn [negb] in H.
    { apply IH in H as (body & bvalue & s' & -> & Hin & H); [|lia].
      exists (String "\" (String dquote body)), (String dquote bvalue), s'.
      rewrite snoc_append in H. repeat split.
      - now apply inside_escaped.
      - rewrite <- H. apply tokens_escapedstate. discriminate. }
    apply IH in H as (body & bvalue & s' & -> & Hin & H); [|lia].
    exists (String "\" (String d body)), (String "\" (String d bvalue)), s'.
    rewrite !snoc_append in H. repeat split.
    + apply inside_backslash; [| |exact Hin].
      * now apply Ascii.eqb_neq.
      * now apply Ascii.eqb_neq.
    + rewrite <- H. apply tokens_escapedstate. discriminate.
  - apply IH in H as (body & bvalue & s' & -> & Hin & H); [|lia].
    exists (String c body), (String c bvalue), s'.
    rewrite snoc_append in H. repeat split; [|exact H].
    apply inside_char; [| |exact Hin].
    + now apply Ascii.eqb_neq.
    + now apply Ascii.eqb_neq.
Qed.

(** Inside a token, what the lexer reads up to the next blank or the end
    is made of pieces. *)
Lemma tokens_word_pieces (n : nat) :
  forall s, String.length s <= n ->
  forall token quoted esc l,
    tokens s StWord token quoted esc = Return l ->
    exists src value q rest,
      s = src +:+ rest
      /\ pieces src value q
      /\ (rest = EmptyString \/ exists c rest', rest = String c rest' /\ blank c = true).
Proof.
  induction n as [|n IH]; intros s Hlen token quoted esc l H.
  { destruct s; [|cbn in Hlen; lia].
    exists EmptyString, EmptyString, false, EmptyString.
    repeat split; [constructor | now left]. }
  destruct s as [|c s].
  { exists EmptyString, EmptyString, false, EmptyString.
    repeat split; [constructor | now left]. }
  cbn [String.length] in Hlen. cbn [tokens] in H.
  rewrite blank_whitespace in H. destruct (blank c) eqn:Hblank.
  { exists EmptyString, EmptyString, false, (String c s).
    repeat split; [constructor | right; eauto]. }
  unfold quotes, escape in H. cbn [char_in] in H.
  destruct (Ascii.eqb_spec c squote) as [-> | Hsq].
  { apply tokens_single_quoted in H as (body & s' & -> & Hbody & H).
    apply IH in H as (src & value & q & rest & -> & Hp & Hrest).
    - exists (String "'" (body +:+ String "'" src)), (body +:+ value), true, rest.
      repeat split; [|now apply (pieces_single _ _ _ q) | exact Hrest].
      cbn [String.append]. now rewrite append_assoc.
    - rewrite length_append in Hlen. cbn [String.length] in Hlen. lia. }
  destruct (Ascii.eqb_spec c dquote) as [-> | Hdq].
  { apply (tokens_double_quoted (String.length s)) in H
      as (body & bvalue & s' & -> & Hin & H); [|lia].
    apply IH in H as (src & value & q & rest & -> & Hp & Hrest).
    - exists (String "034" (body +:+ String "034" src)), (bvalue +:+ value), true, rest.
      repeat split; [|now apply (pieces_double _ _ _ _ q) | exact Hrest].
      cbn [String.append]. now rewrite append_assoc.
    - rewrite length_append in Hlen. cbn [String.length] in Hlen. lia. }
  destruct (Ascii.eqb_spec c backslash) as [-> | Hbs].
  { destruct s as [|d s]; [discriminate |].
    cbn [String.length] in Hlen. cbn [tokens keeps_escape] in H.
    apply IH in H as (src & value & q & rest & -> & Hp & Hrest); [|lia].
    exists (String "\" (String d src)), (String d value), q, rest.
    repeat split; [now apply pieces_escaped | exact Hrest]. }
  apply IH in H as (src & value & q & rest & -> & Hp & Hrest); [|lia].
  exists (String c src), (String c value), q, rest.
  repeat split; [|exact Hrest].
  apply pieces_plain; [exact Hblank | | exact Hp].
  unfold special.
  change "'"%char with squote. change "034"%char with dquote. change "\"%char with backslash.
  apply Ascii.eqb_neq in Hsq, Hdq, Hbs. now rewrite Hsq, Hdq, Hbs.
Qed.

(** A command that [shlex.split] splits is a sequence of words, and the
    list returned is what they stand for. *)
Lemma words_of_split (n : nat) :
  forall command, String.length command <= n ->
  forall argv,
    tokens command StWhite EmptyString false StWhite = Return argv ->
    words command argv.
Proof.
  induction n as [|n IH]; intros command Hlen argv H.
  { destruct command; [|cbn in Hlen; lia]. injection H as <-. constructor. }
  destruct command as [|c command]; [injection H as <-; constructor |].
  cbn [String.length] in Hlen.
  destruct (blank c) eqn:Hblank.
  { cbn [tokens is_empty negb orb] in H. rewrite blank_whitespace, Hblank in H.
    apply words_blank; [exact Hblank |]. apply IH; [lia | exact H]. }
  rewrite tokens_white_as_word in H.
  pose proof H as Hdec.
  apply (tokens_word_pieces (S (String.length command))) in Hdec
    as (src & value & q & rest & Hs & Hp & Hrest); [|cbn [String.length]; lia].
  assert (Hne : src <> EmptyString).
  { intros ->. cbn [String.append] in Hs. subst rest.
    destruct Hrest as [Hrest | (c' & rest' & Hrest & Hc')]; [discriminate |].
    injection Hrest as -> ->. congruence. }
  pose proof (pieces_token _ _ _ Hp Hne) as Htok.
  rewrite Hs, (tokens_pieces _ _ _ Hp) in H. cbn [String.append orb] in H.
  rewrite Hs. destruct Hrest as [-> | (c' & rest' & -> & Hc')].
  - cbn [tokens] in H. unfold emit in H. rewrite Htok in H. injection H as <-.
    rewrite append_empty_r. apply words_last. now exists q.
  - cbn [tokens] in H. rewrite blank_whitespace, Hc' in H.
    rewrite orb_comm, Htok in H. unfold emit in H. rewrite Htok in H.
    destruct (tokens rest' StWhite EmptyString false StWhite) as [l'|e] eqn:Hrest';
      [|discriminate].
    injection H as <-.
    apply words_more; [now exists q | exact Hc' |].
    apply IH; [|exact Hrest'].
    apply (f_equal String.length) in Hs. rewrite length_append in Hs.
    cbn [String.length] in Hs. lia.
Qed.

(** [shlex.split] returns a list exactly for the commands that are
    sequences of words, and the list is what the words stand for. *)
Lemma split_iff_words (command : string) (argv : list string) :
  split command = Return argv <-> words command argv.
Proof.
  split; [|apply split_words].
  intros H. now apply (words_of_split (String.length command)).
Qed.

End ShellWordReading.

(** ** The argument vector of the child *)

Section ArgumentVector.

Import Subprocess Server Flask Request Word ShellWords App.

(** C4. [run_command] splits the command into tokens by the rules for
    the words of the POSIX shell, blanks between words and the three
    kinds of quoting, and starts the child with exactly that vector,
    without a shell: a command is split exactly when it is a sequence of
    such words, into what they stand for, and the child is the program
    run for that list. [bin/gamesman getstart chess 101] gives the four
    tokens [bin/gamesman], [getstart], [chess], [101]; in a segment, [;]
    and [|] are ordinary characters of a token. *)
Theorem run_command_tokens (os : system) (game_name variant_id position : string) :
  Word.word game_name = true ->
  Word.word variant_id = true ->
  Word.word position = true ->
  (forall command argv, Shlex.split command = Return argv <-> words command argv)
  /\ (forall command argv,
        words command argv ->
        run_command os command
        = try_except (result ← run os argv true false; mret (stdout result))
            except_CalledProcessError
        /\ popen_args false argv = argv
        /\ run_command os command = Answer.answer (os argv))
  /\ Shlex.split "bin/gamesman getstart chess 101"
     = Return ["bin/gamesman"; "getstart"; "chess"; "101"]
  /\ plain_char ";" = true /\ plain_char "|" = true
  /\ blank ";" = false /\ special ";" = false
  /\ blank "|" = false /\ special "|" = false
  /\ Shlex.split (getstart_command game_name variant_id)
     = Return ["bin/gamesman"; "getstart"; game_name; variant_id]
  /\ Shlex.split (query_command game_name variant_id position)
     = Return ["bin/gamesman"; "query"; "--"; game_name; variant_id; position]
  /\ popen_args false ["bin/gamesman"; "getstart"; game_name; variant_id]
     = ["bin/gamesman"; "getstart"; game_name; variant_id]
  /\ getstart os game_name variant_id
     = match os ["bin/gamesman"; "getstart"; game_name; variant_id] with
       | Failed f => Raise (exn_of_fault f)
       | Exited rc out err =>
           if (rc =? 0)%Z then Return out else Return (build_error_response err)
       end
  /\ query os game_name variant_id position
     = match os ["bin/gamesman"; "query"; "--"; game_name; variant_id; position] with
       | Failed f => Raise (exn_of_fault f)
       | Exited rc out err =>
           if (rc =? 0)%Z then Return out else Return (build_error_response err)
       end.
Proof.
  intros Hg Hv Hp.
  split; [apply split_iff_words |].
  split.
  { intros command argv Hwords. apply split_words in Hwords.
    split; [|split; [reflexivity | now apply run_command_answer]].
    unfold run_command. now rewrite Hwords. }
  split; [reflexivity |].
  do 6 (split; [reflexivity |]).
  split; [now apply split_getstart_command |].
  split; [now apply split_query_command |].
  split; [reflexivity |].
  split.
  - unfold getstart. now rewrite run_command_cases, split_getstart_command.
  - unfold query. now rewrite run_command_cases, split_query_command.
Qed.

Lemma run_command_tokens_witness :
  Shlex.split (getstart_command "a;rm" "1|2")
  = Return ["bin/gamesman"; "getstart"; "a;rm"; "1|2"].
Proof.
  apply (run_command_tokens (fun _ => Exited 0 "out" "err") "a;rm" "1|2" "p");
    reflexivity.
Defined.

(** C5. Whatever the position is, also when it begins with a dash, the
    view of pattern B runs the command that has the separator [--] right
    before the three arguments game name, variant and position: the
    child is started with [bin/gamesman], [query], [--] and then the
    tokens of the three segments, and the response to the request is made
    from what it does. *)
Theorem query_runs_after_separator (static_view : string -> response) (os : system)
    (game_name variant_id position : string) :
  query os game_name variant_id position
  = run_command os
      ("bin/gamesman query -- " +:+ game_name +:+ " " +:+ variant_id +:+ " " +:+ position)
  /\ query os game_name variant_id position
     = (toks ← Shlex.split (game_name +:+ " " +:+ variant_id +:+ " " +:+ position);
        Answer.answer (os ("bin/gamesman" :: "query" :: "--" :: toks)))
  /\ (forall argv,
        Shlex.split (query_command game_name variant_id position) = Return argv ->
        exists rest,
          argv = "bin/gamesman" :: "query" :: "--" :: rest
          /\ Shlex.split (game_name +:+ " " +:+ variant_id +:+ " " +:+ position)
             = Return rest)
  /\ (Word.word game_name = true -> Word.word variant_id = true ->
      Word.word position = true ->
      query os game_name variant_id position
      = Answer.answer (os ["bin/gamesman"; "query"; "--"; game_name; variant_id; position]))
  /\ (segment game_name = true -> segment variant_id = true ->
      segment position = true -> game_name <> "static" ->
      wsgi_app static_view os (query_path game_name variant_id position)
      = finalize (query os game_name variant_id position)).
Proof.
  split; [reflexivity |].
  split.
  { unfold query. rewrite run_command_cases, split_query_prefix. unfold Shlex.split.
    now destruct (Shlex.tokens _ _ _ _ _). }
  split.
  { intros argv Hsplit. rewrite split_query_prefix in Hsplit. unfold Shlex.split.
    destruct (Shlex.tokens _ _ _ _ _) as [toks|e]; cbn in Hsplit; [|discriminate].
    injection Hsplit as <-. eauto. }
  split.
  - intros Hg Hv Hp. unfold query.
    now rewrite run_command_cases, split_query_command.
  - intros Hg Hv Hp Hne. now apply wsgi_app_query.
Qed.

Lemma query_runs_after_separator_witness :
  query (fun argv => match argv with
                     | ["bin/gamesman"; "query"; "--"; "quixo"; "regular"; "--help"] =>
                         Exited 0 "value" EmptyString
                     | _ => Exited 2 EmptyString "usage"
                     end)
    "quixo" "regular" "--help"
  = Return "value".
Proof.
  apply (proj1 (proj2 (proj2 (proj2
           (query_runs_after_separator (fun _ => FromException 404)
              (fun argv => match argv with
                           | ["bin/gamesman"; "query"; "--"; "quixo"; "regular"; "--help"] =>
                               Exited 0 "value" EmptyString
                           | _ => Exited 2 EmptyString "usage"
                           end)
              "quixo" "regular" "--help")))));
    reflexivity.
Defined.

(** A command with the three kinds of quoting, as a sequence of words. *)
Example words_of_quoted_command :
  words
    ("query 'a b' " +:+ String "034" ("c\" +:+ String "034" ("d" +:+ String "034" " e\ f")))
    ["query"; "a b"; "c" +:+ String "034" "d"; "e f"].
Proof. apply split_iff_words. reflexivity. Qed.

End ArgumentVector.

(** ** When the error body is a JSON text *)

Section ErrorBodyValidity.

Import Subprocess Server ErrorJson.

Lemma expect_brace_not_comma (s r : string) :
  Json.expect "}" s = Some r -> Json.expect "," s = None.
Proof.
  unfold Json.expect. destruct (Json.skip_ws s) as [|d rest]; [discriminate |].
  destruct (Ascii.eqb_spec "}" d) as [<- |]; [reflexivity | discriminate].
Qed.

(** With less fuel than the depth of the body nothing is recognised. *)
Lemma error_body_needs_fuel (m : string) (fuel : nat) :
  fuel < 3 -> Json.text fuel (build_error_response m) = false.
Proof.
  intros Hfuel. rewrite build_error_response_string. unfold Json.text.
  change (Json.skip_ws (String "{" ?s)) with (String "{" s).
  destruct fuel as [|[|[|fuel]]]; [reflexivity | | | lia].
  - rewrite value_object.
    change (Json.expect "}" (String " " (String dquote ?s))) with (@None string).
    reflexivity.
  - rewrite value_object, members_unfold.
    change (Json.expect "}" (String " " (String dquote ?s))) with (@None string).
    change (Json.skip_ws (String " " (String dquote ?s))) with (String dquote s).
    unfold Json.json_string. rewrite Ascii.eqb_refl.
    rewrite (string_tail_ordinary "error") by reflexivity.
    reflexivity.
Qed.

(** The error body is a JSON text exactly when the message and the
    closing quotation mark, space and brace end the string and the
    object. *)
Lemma error_body_valid_iff (m : string) :
  Json.valid (build_error_response m) <-> closes_object (m +:+ String dquote " }").
Proof.
  split.
  - intros [fuel Hfuel].
    destruct (Nat.lt_ge_cases fuel 3) as [Hlt | Hge].
    { rewrite error_body_needs_fuel in Hfuel by exact Hlt. discriminate. }
    destruct fuel as [|[|[|fuel]]]; try lia.
    rewrite error_body_text in Hfuel.
    destruct (Json.string_tail (m +:+ String dquote " }")) as [s3|] eqn:Htail;
      [|discriminate].
    exists s3. split; [exact Htail |].
    destruct (Json.expect "}" s3) as [r|] eqn:Hbrace.
    + left. now exists r.
    + right. destruct (Json.expect "," s3) as [s4|] eqn:Hcomma; [|discriminate].
      cbn [mbind option_bind] in Hfuel.
      destruct (Json.members (S fuel) (Json.skip_ws s4)) as [r|] eqn:Hmem; [|discriminate].
      exists s4, (S fuel), r. repeat split; assumption.
  - intros (s3 & Htail & [(r & Hbrace & Hr) | (s4 & fuel & r & Hcomma & Hmem & Hr)]).
    + exists 3. now rewrite error_body_text, Htail, Hbrace.
    + destruct fuel as [|fuel]; [discriminate |].
      exists (S (S (S fuel))). rewrite error_body_text, Htail.
      destruct (Json.expect "}" s3) as [r'|] eqn:Hbrace.
      * apply expect_brace_not_comma in Hbrace. congruence.
      * rewrite Hcomma. cbn [mbind option_bind]. now rewrite Hmem.
Qed.

(** What follows a quotation mark inside the message cannot end the
    object by a brace: the closing quotation mark is still to come. *)
Lemma suffix_not_blank (r : string) (t : string) :
  is_empty (Json.skip_ws (r +:+ String dquote t)) = false.
Proof.
  induction r as [|c r IH]; [reflexivity |].
  cbn [String.append Json.skip_ws]. now destruct (Json.is_ws c).
Qed.

Lemma expect_keeps_suffix (c : ascii) (r t rest : string) :
  Ascii.eqb c dquote = false ->
  Json.expect c (r +:+ String dquote t) = Some rest ->
  exists r', rest = r' +:+ String dquote t.
Proof.
  intros Hc. unfold Json.expect. induction r as [|x r IH].
  - cbn [String.append Json.skip_ws]. change (Json.is_ws dquote) with false. cbv iota.
    rewrite Hc. discriminate.
  - cbn [String.append Json.skip_ws]. destruct (Json.is_ws x); [exact IH |].
    destruct (Ascii.eqb c x); [|discriminate].
    intros [= <-]. now exists r.
Qed.

(** A message whose first quotation mark comes after ordinary characters:
    the body is a JSON text exactly when what follows that mark goes on
    with further members. *)
Lemma early_quote_valid_iff (p r : string) :
  Json.ordinary p = true ->
  Json.valid (build_error_response (p +:+ dq +:+ r))
  <-> more_members (r +:+ String dquote " }").
Proof.
  intros Hp. rewrite error_body_valid_iff. unfold closes_object, dq.
  rewrite !append_assoc. cbn [String.append].
  rewrite (string_tail_ordinary p _ Hp). split.
  - intros (s3 & [= <-] & [(r' & Hbrace & Hr') | Hmore]); [|exact Hmore].
    apply expect_keeps_suffix in Hbrace as (r'' & ->); [|reflexivity].
    now rewrite suffix_not_blank in Hr'.
  - intros Hmore. eexists. split; [reflexivity | now right].
Qed.

(** C2, as amended. When the child exits with a code other than zero, the
    body is three texts put together: an opening brace, a space, the word
    [error] in quotation marks, a colon, a space and a quotation mark; then
    the standard error of the child as it is; then a quotation mark, a
    space and a closing brace. A quotation mark in the standard error is
    not escaped. The body is a JSON text exactly when the standard error
    with the closing quotation mark, space and brace ends the string and
    the object; when the first quotation mark of the standard error comes
    after ordinary characters only, exactly when what follows that mark
    is a comma and further members up to the closing brace, and so not
    when it is anything but a comma. *)
Theorem error_body_is_concatenation (os : system) (command : string)
    (argv : list string) (rc : Z) (out err : string) :
  Shlex.split command = Return argv ->
  os argv = Exited rc out err ->
  rc <> 0%Z ->
  run_command os command
  = Return (("{ " +:+ dq +:+ "error" +:+ dq +:+ ": " +:+ dq) +:+ err +:+ (dq +:+ " }"))
  /\ (forall body,
        run_command os command = Return body ->
        (Json.valid body <-> closes_object (err +:+ String dquote " }")))
  /\ (forall p r body,
        err = p +:+ dq +:+ r ->
        Json.ordinary p = true ->
        run_command os command = Return body ->
        (Json.valid body <-> more_members (r +:+ String dquote " }")))
  /\ (forall p r,
        err = p +:+ dq +:+ r ->
        Json.ordinary p = true ->
        Json.continues (r +:+ String dquote " }") = false ->
        forall body, run_command os command = Return body -> ~ Json.valid body).
Proof.
  intros Hsplit Hos Hrc.
  assert (Hrun : run_command os command = Return (build_error_response err)).
  { rewrite run_command_cases, Hsplit, Hos.
    apply Z.eqb_neq in Hrc. now rewrite Hrc. }
  split; [exact Hrun |]. split; [|split].
  - intros body Hbody. rewrite Hrun in Hbody. injection Hbody as <-.
    apply error_body_valid_iff.
  - intros p r body -> Hp Hbody. rewrite Hrun in Hbody. injection Hbody as <-.
    now apply early_quote_valid_iff.
  - intros p r -> Hp Hr body Hbody. rewrite Hrun in Hbody. injection Hbody as <-.
    now apply early_quote_invalid.
Qed.

Lemma error_body_is_concatenation_witness :
  ~ Json.valid (build_error_response (dq +:+ ",")).
Proof.
  intros Hvalid.
  apply (proj1 (proj1 (proj2 (proj2 (error_body_is_concatenation
                   (fun _ => Exited 1 EmptyString (dq +:+ ",")) "bin/gamesman getstart a b"
                   ["bin/gamesman"; "getstart"; "a"; "b"] 1%Z EmptyString (dq +:+ ",")
                   eq_refl eq_refl ltac:(discriminate))))
                 EmptyString "," (build_error_response (dq +:+ ","))
                 eq_refl eq_refl eq_refl)) in Hvalid.
  destruct Hvalid as (s4 & fuel & r & Hcomma & Hmem & _).
  injection Hcomma as <-. destruct fuel; discriminate.
Defined.

End ErrorBodyValidity.

(** ** The script on the bytes of the files *)

Section DiskScript.

Import Builtins Re Literal Convert Frame Text TextMode.

Lemma char_in_ascii (c : ascii) (alphabet : string) :
  is_ascii alphabet = true -> char_in c alphabet = true -> (N_of_ascii c <? 128)%N = true.
Proof.
  induction alphabet as [|a alphabet IH]; intros Ha Hc; [discriminate |].
  cbn [is_ascii] in Ha. apply andb_true_iff in Ha as [Ha Halphabet].
  cbn [char_in] in Hc. destruct (Ascii.eqb_spec c a) as [-> |]; [exact Ha | now apply IH].
Qed.

Lemma chars_in_ascii (s alphabet : string) :
  is_ascii alphabet = true ->
  (forall c, char_in c s = true -> char_in c alphabet = true) ->
  is_ascii s = true.
Proof.
  intros Ha. induction s as [|c s IH]; intros Hs; [reflexivity |].
  cbn [is_ascii]. apply andb_true_iff. split.
  - apply (char_in_ascii c alphabet Ha). apply Hs. cbn [char_in].
    now rewrite Ascii.eqb_refl.
  - apply IH. intros x Hx. apply Hs. cbn [char_in]. rewrite Hx.
    now destruct (Ascii.eqb x c).
Qed.

(** What [hex] returns for a number that is not negative is ASCII. *)
Lemma hex_is_ascii (v : Z) : (0 <= v)%Z -> is_ascii (hex v) = true.
Proof.
  intros Hv. destruct (hex_literal_hex v Hv) as [-> _].
  rewrite is_ascii_append. apply andb_true_iff. split; [reflexivity |].
  destruct (hex_digits_denote (Z.to_N v)) as (ds & Hds & _ & _).
  apply (chars_in_ascii _ hex_alphabet); [reflexivity |].
  intros c Hc. eapply digit_values_in; [exact Hds | exact Hc].
Qed.

(** The substitution makes an ASCII text of an ASCII text. *)
Lemma sub_keeps_ascii (content updated : string) :
  Re.sub binary_pattern binary_to_hex content = Return updated ->
  is_ascii content = true -> is_ascii updated = true.
Proof.
  unfold Re.sub. rewrite compile_binary_pattern. cbn [mbind result_bind].
  destruct (sub_binary_induction
              (fun s out => is_ascii s = true -> is_ascii out = true)) with (s := content)
    as (out & Hsub & Hascii).
  - reflexivity.
  - intros t out v Hne Hbin Hv _ IH Ht.
    rewrite is_ascii_append. apply andb_true_iff. split; [now apply hex_is_ascii |].
    apply IH. destruct (bits_split t) as [Hsplit _].
    cbn [String.append is_ascii andb] in Ht.
    change (N_of_ascii "0" <? 128)%N with true in Ht.
    change (N_of_ascii "b" <? 128)%N with true in Ht. cbn [andb] in Ht.
    rewrite Hsplit, is_ascii_append in Ht. now apply andb_true_iff in Ht as [_ Ht].
  - intros c s out _ IH Hs. cbn [is_ascii] in *.
    apply andb_true_iff in Hs as [Hc Hs]. now rewrite Hc, IH.
  - rewrite Hsub. intros [= <-]. exact Hascii.
Qed.

(** The function of [convert.py] on the bytes of a file that can be read
    and written: the text of the file is rewritten as on the texts of the
    files, and encoded. *)
Lemma convert_regular_file (pf : platform) (path : string) (d : Disk.disk)
    (data text updated : string) :
  d !! path = Some (Disk.Regular data true true) ->
  decode pf data = Some text ->
  Re.sub binary_pattern binary_to_hex (universal_newlines text) = Return updated ->
  Disk.convert_binary_to_hex pf path d
  = match encode pf (output_newlines (linesep pf) updated) with
    | Some new => (<[path := Disk.Regular new true true]> d, Return tt)
    | None =>
        (<[path := Disk.Regular EmptyString true true]> d,
         Raise (OtherError "UnicodeEncodeError"))
    end.
Proof.
  intros Hfile Hdec Hsub.
  unfold Disk.convert_binary_to_hex, Disk.read_text, Disk.write_text.
  now rewrite Hfile, Hdec, Hsub.
Qed.

(** The same for an ASCII file without carriage returns, where the
    encoding has ASCII as it is and lines end in a line feed: the bytes
    are the text. *)
Lemma convert_ascii_file (pf : platform) (path : string) (d : Disk.disk)
    (data updated : string) :
  ascii_compatible pf ->
  linesep pf = String LF EmptyString ->
  d !! path = Some (Disk.Regular data true true) ->
  is_ascii data = true ->
  char_in CR data = false ->
  Re.sub binary_pattern binary_to_hex data = Return updated ->
  Disk.convert_binary_to_hex pf path d
  = (<[path := Disk.Regular updated true true]> d, Return tt).
Proof.
  intros Hpf Hsep Hfile Hascii Hcr Hsub.
  destruct (Hpf data Hascii) as [Hdec _].
  rewrite <- (universal_newlines_without_cr data Hcr) in Hsub.
  rewrite (convert_regular_file pf path d data data updated Hfile Hdec Hsub).
  rewrite Hsep, output_newlines_lf.
  rewrite (universal_newlines_without_cr data Hcr) in Hsub.
  destruct (Hpf updated (sub_keeps_ascii _ _ Hsub Hascii)) as [_ ->]. reflexivity.
Qed.

(** C10, as amended. Every character of the text of the file, which is
    its bytes decoded with CR LF and CR read as LF, that is outside the
    matches of the pattern [0b[01]+] is in the text written, unchanged and
    in the same order: the text read and the text written are cut into
    the same pieces, kept as they are or replaced, and each replaced piece
    is what the pattern matches at its place. The bytes written are that
    text encoded, with the line separator of the system for LF. For an
    ASCII file without carriage returns, an encoding that has ASCII as it
    is and LF as line separator, the same holds of the bytes of the
    file. *)
Theorem script_keeps_other_characters (pf : platform) (d : Disk.disk)
    (data text : string) :
  d !! file_path = Some (Disk.Regular data true true) ->
  decode pf data = Some text ->
  exists chunks,
    source chunks = universal_newlines text
    /\ Re.sub binary_pattern binary_to_hex (universal_newlines text)
       = Return (target chunks)
    /\ matches binary_items chunks
    /\ Re.compile binary_pattern = Return binary_items
    /\ Disk.script pf d
       = match encode pf (output_newlines (linesep pf) (target chunks)) with
         | Some new => (<[file_path := Disk.Regular new true true]> d, Return tt)
         | None =>
             (<[file_path := Disk.Regular EmptyString true true]> d,
              Raise (OtherError "UnicodeEncodeError"))
         end
    /\ (ascii_compatible pf ->
        linesep pf = String LF EmptyString ->
        is_ascii data = true ->
        char_in CR data = false ->
        source chunks = data
        /\ Disk.script pf d
           = (<[file_path := Disk.Regular (target chunks) true true]> d, Return tt)).
Proof.
  intros Hfile Hdec.
  destruct (sub_binary_pattern (universal_newlines text))
    as (chunks & Hsrc & Hsub & Hmatch & _).
  exists chunks. do 4 (split; [assumption || reflexivity |]).
  split; [now apply (convert_regular_file pf file_path d data text) |].
  intros Hpf Hsep Hascii Hcr.
  destruct (Hpf data Hascii) as [Hdec' _].
  assert (text = data) by congruence. subst text.
  rewrite (universal_newlines_without_cr data Hcr) in Hsrc, Hsub.
  split; [exact Hsrc |]. now apply (convert_ascii_file pf file_path d data).
Qed.

Lemma script_keeps_other_characters_witness :
  exists chunks,
    source chunks = "a = 0b11; b = 0b2;"
    /\ Disk.script posix_ascii {[ "quixo.c" := Disk.Regular "a = 0b11; b = 0b2;" true true ]}
       = (<[file_path := Disk.Regular (target chunks) true true]>
            {[ "quixo.c" := Disk.Regular "a = 0b11; b = 0b2;" true true ]},
          Return tt)
    /\ matches binary_items chunks.
Proof.
  destruct (script_keeps_other_characters posix_ascii
              {[ "quixo.c" := Disk.Regular "a = 0b11; b = 0b2;" true true ]}
              "a = 0b11; b = 0b2;" "a = 0b11; b = 0b2;")
    as (chunks & _ & _ & Hmatch & _ & _ & Hbytes); [reflexivity | reflexivity |].
  destruct (Hbytes posix_ascii_compatible eq_refl eq_refl eq_refl) as [Hsrc Hscript].
  exists chunks. repeat split; assumption.
Defined.

(** C10 as written does not hold. In a file of two lines, the first
    ended by CR LF and the second by CR, no binary literal starts; the
    script writes the file back with both line ends as LF, so the two
    carriage returns, which are in no match, are not in the rewritten
    file. *)
Lemma carriage_returns_are_not_kept :
  has_literal (String "a" (String ";" (String CR (String LF
                 (String "b" (String ";" (String CR EmptyString)))))))
  = false
  /\ Disk.script posix_latin_1
       {[ "quixo.c" := Disk.Regular
            (String "a" (String ";" (String CR (String LF
               (String "b" (String ";" (String CR EmptyString))))))) true true ]}
     = ({[ "quixo.c" := Disk.Regular
             (String "a" (String ";" (String LF
                (String "b" (String ";" (String LF EmptyString)))))) true true ]},
        Return tt)
  /\ char_in CR (String "a" (String ";" (String LF
                   (String "b" (String ";" (String LF EmptyString))))))
     = false.
Proof.
  split; [reflexivity |]. split; [|reflexivity].
  vm_compute. reflexivity.
Qed.

End DiskScript.

(** ** What the script does to the files around it *)

Section DiskFrame.

Import Builtins Re Literal Convert Text TextMode.

Lemma sub_pattern_without_literal (content : string) :
  has_literal content = false ->
  Re.sub binary_pattern binary_to_hex content = Return content.
Proof.
  intros Hfree. unfold Re.sub. rewrite compile_binary_pattern. cbn [mbind result_bind].
  now apply sub_without_literal.
Qed.

(** X10. [convert_binary_to_hex] on any path and any files: no file is
    created or removed and no other path changes. When the file cannot be
    read, because it is missing, is a folder, may not be read or has bytes
    that do not decode, or may not be written, the files stay as they are
    and the error leaves the function. *)
Theorem convert_changes_one_path (pf : platform) (path : string) (d : Disk.disk) :
  dom (Disk.convert_binary_to_hex pf path d).1 = dom d
  /\ (forall p, p <> path -> (Disk.convert_binary_to_hex pf path d).1 !! p = d !! p)
  /\ (forall e,
        Disk.read_text pf d path = Raise e ->
        Disk.convert_binary_to_hex pf path d = (d, Raise e))
  /\ (d !! path = None ->
      Disk.convert_binary_to_hex pf path d = (d, Raise (FileNotFoundError path)))
  /\ (d !! path = Some Disk.Folder ->
      Disk.convert_binary_to_hex pf path d = (d, Raise (OtherError "IsADirectoryError")))
  /\ (forall data w,
        d !! path = Some (Disk.Regular data false w) ->
        Disk.convert_binary_to_hex pf path d = (d, Raise (PermissionError path)))
  /\ (forall data w,
        d !! path = Some (Disk.Regular data true w) ->
        decode pf data = None ->
        Disk.convert_binary_to_hex pf path d = (d, Raise (OtherError "UnicodeDecodeError")))
  /\ (forall data text,
        d !! path = Some (Disk.Regular data true false) ->
        decode pf data = Some text ->
        Disk.convert_binary_to_hex pf path d = (d, Raise (PermissionError path))).
Proof.
  assert (Hframe : dom (Disk.convert_binary_to_hex pf path d).1 = dom d
                   /\ forall p, p <> path ->
                                (Disk.convert_binary_to_hex pf path d).1 !! p = d !! p).
  { unfold Disk.convert_binary_to_hex, Disk.read_text.
    destruct (d !! path) as [[data [] w|]|] eqn:Hfile; try (now split).
    destruct (decode pf data) as [text|]; [|now split].
    destruct (sub_binary_returns (universal_newlines text)) as (updated & ->).
    unfold Disk.write_text. rewrite Hfile.
    destruct w; [|now split].
    destruct (encode pf _); cbn [fst]; (split;
      [apply dom_insert_lookup_L; now rewrite Hfile
      |intros p Hp; now rewrite lookup_insert_ne]). }
  destruct Hframe as [Hdom Hother].
  split; [exact Hdom |]. split; [exact Hother |].
  unfold Disk.convert_binary_to_hex. split; [now intros e -> |].
  unfold Disk.read_text. repeat split.
  - now intros ->.
  - now intros ->.
  - now intros data w ->.
  - now intros data w -> ->.
  - intros data text Hfile Hdec. rewrite Hfile, Hdec.
    destruct (sub_binary_returns (universal_newlines text)) as (updated & ->).
    unfold Disk.write_text. now rewrite Hfile.
Qed.

(** X11. A file in which no binary literal starts is written back with
    the text it had, encoded again. When it is ASCII without carriage
    returns, the encoding has ASCII as it is and lines end in LF, the
    script leaves the files as they are, byte for byte. *)
Theorem script_keeps_bytes_without_literal (pf : platform) (d : Disk.disk)
    (data text : string) :
  d !! file_path = Some (Disk.Regular data true true) ->
  decode pf data = Some text ->
  has_literal (universal_newlines text) = false ->
  Disk.script pf d
  = match encode pf (output_newlines (linesep pf) (universal_newlines text)) with
    | Some new => (<[file_path := Disk.Regular new true true]> d, Return tt)
    | None =>
        (<[file_path := Disk.Regular EmptyString true true]> d,
         Raise (OtherError "UnicodeEncodeError"))
    end
  /\ (ascii_compatible pf -> linesep pf = String LF EmptyString ->
      is_ascii data = true -> char_in CR data = false ->
      Disk.script pf d = (d, Return tt)).
Proof.
  intros Hfile Hdec Hfree.
  pose proof (sub_pattern_without_literal _ Hfree) as Hsub.
  split; [now apply (convert_regular_file pf file_path d data text) |].
  intros Hpf Hsep Hascii Hcr.
  destruct (Hpf data Hascii) as [Hdec' _].
  assert (text = data) by congruence. subst text.
  rewrite (universal_newlines_without_cr data Hcr) in Hsub.
  unfold Disk.script.
  rewrite (convert_ascii_file pf file_path d data data) by assumption.
  now rewrite insert_id.
Qed.

Lemma script_keeps_bytes_without_literal_witness :
  Disk.script posix_ascii
    {[ "quixo.c" := Disk.Regular "mask = 0B101 | 0x0b; /* 0b */" true true ]}
  = ({[ "quixo.c" := Disk.Regular "mask = 0B101 | 0x0b; /* 0b */" true true ]}, Return tt).
Proof.
  refine (proj2 (script_keeps_bytes_without_literal posix_ascii
                   {[ "quixo.c" := Disk.Regular "mask = 0B101 | 0x0b; /* 0b */" true true ]}
                   "mask = 0B101 | 0x0b; /* 0b */" "mask = 0B101 | 0x0b; /* 0b */"
                   _ _ _) posix_ascii_compatible _ _ _);
    vm_compute; reflexivity.
Defined.

End DiskFrame.

(** ** Bytes of the child that are no text *)

Section Undecodable.

Import Subprocess Server Flask Request TextMode Pipes App.



End Undecodable.

(** ** Commands that are not split *)

Section Unsplittable.

Import Subprocess Server Shlex ShellWords.

(** X19. A command that is no sequence of words, because a quotation is
    left open or a backslash ends it, is never run: [shlex.split] raises
    [ValueError], which leaves [run_command] whatever the system is. *)
Theorem unsplittable_command_never_runs (os : system) (command : string) :
  ~ (exists argv, words command argv) ->
  exists msg,
    split command = Raise (ValueError msg)
    /\ run_command os command = Raise (ValueError msg).
Proof.
  intros Hnone. destruct (split command) as [argv|e] eqn:Hsplit.
  - contradiction Hnone. exists argv. now apply split_iff_words.
  - pose proof Hsplit as Hmsg. apply tokens_raises in Hmsg as [msg ->].
    exists msg. split; [reflexivity |]. now rewrite run_command_cases, Hsplit.
Qed.

Lemma unsplittable_command_never_runs_witness :
  exists msg,
    split "bin/gamesman getstart a b\" = Raise (ValueError msg)
    /\ run_command (fun _ => Exited 0 "start" EmptyString) "bin/gamesman getstart a b\"
       = Raise (ValueError msg).
Proof.
  apply (unsplittable_command_never_runs (fun _ => Exited 0 "start" EmptyString)
           "bin/gamesman getstart a b\").
  intros [argv Hwords]. apply split_iff_words in Hwords. discriminate.
Defined.

End Unsplittable.

(** ** The script on bytes and on texts *)

Section BytesAndTexts.

Import Builtins Re Literal Convert TextMode.

(** X20. The script on the bytes of the files does to the text of
    [quixo.c] what the script does on the texts of the files: for a file
    that can be read and written and whose bytes decode, the bytes written
    are the encoding of the text that the script on texts puts in place
    of the text read, a rewriting of it literal by literal. *)
Theorem disk_script_follows_text_script (pf : platform) (d : Disk.disk)
    (fs : files) (data text : string) :
  d !! file_path = Some (Disk.Regular data true true) ->
  decode pf data = Some text ->
  fs !! file_path = Some (universal_newlines text) ->
  exists updated,
    script fs = Return (<[file_path := updated]> fs)
    /\ rewritten (universal_newlines text) updated
    /\ Disk.script pf d
       = match encode pf (output_newlines (linesep pf) updated) with
         | Some new => (<[file_path := Disk.Regular new true true]> d, Return tt)
         | None =>
             (<[file_path := Disk.Regular EmptyString true true]> d,
              Raise (OtherError "UnicodeEncodeError"))
         end.
Proof.
  intros Hfile Hdec Htext.
  destruct (sub_binary_pattern (universal_newlines text))
    as (chunks & _ & Hsub & _ & Hrw).
  exists (Frame.target chunks). split; [|split; [exact Hrw |]].
  - unfold script, convert_binary_to_hex, read_text, write_text.
    rewrite Htext. cbn [mbind result_bind]. now rewrite Hsub.
  - now apply (convert_regular_file pf file_path d data text).
Qed.

Lemma disk_script_follows_text_script_witness :
  exists updated,
    script {[ "quixo.c" := "x = 0b101;" ]}
    = Return (<[file_path := updated]> {[ "quixo.c" := "x = 0b101;" ]})
    /\ rewritten "x = 0b101;" updated
    /\ Disk.script posix_latin_1 {[ "quixo.c" := Disk.Regular "x = 0b101;" true true ]}
       = match encode posix_latin_1 (output_newlines (linesep posix_latin_1) updated) with
         | Some new =>
             (<[file_path := Disk.Regular new true true]>
                {[ "quixo.c" := Disk.Regular "x = 0b101;" true true ]}, Return tt)
         | None =>
             (<[file_path := Disk.Regular EmptyString true true]>
                {[ "quixo.c" := Disk.Regular "x = 0b101;" true true ]},
              Raise (OtherError "UnicodeEncodeError"))
         end.
Proof.
  apply (disk_script_follows_text_script posix_latin_1
           {[ "quixo.c" := Disk.Regular "x = 0b101;" true true ]}
           {[ "quixo.c" := "x = 0b101;" ]} "x = 0b101;" "x = 0b101;");
    reflexivity.
Defined.

End BytesAndTexts.
